(** * Agri-monitoring dashboard: session store, API gateway client, polling
    scheduler and recommendation normalizer.

    A shallow embedding of the TypeScript services and view controllers:
    - [AuthService] (auth.service.ts; the repository holds two copies, with
      the same code for every member modelled here),
    - [ApiService] (api.service.ts),
    - [DashboardComponent], [AlertsComponent], [PlotDetailsComponent].

    The browser's [localStorage] is a finite map from keys to strings, shared by
    every service and view.  A [BehaviorSubject] is modelled by its current
    value.  An HTTP call is modelled by its single outcome ([Next] or [Error]),
    supplied by a [Backend] oracle or by the caller of a handler. *)

From Stdlib Require Import ZArith Lia Floats.PrimFloat.
From stdpp Require Import base option strings gmap list pretty.

Local Open Scope Z_scope.
Local Open Scope string_scope.

(* ===================================================================== *)
(** ** JavaScript conventions used by the sources *)
(* ===================================================================== *)

Module Js.

(** A string is truthy unless it is empty. *)
Definition truthy (s : string) : bool := negb (String.eqb s "").

(** A possibly absent property ([undefined]/[null] is [None]) holding a string. *)
Definition truthy_field (o : option string) : bool :=
  match o with
  | Some s => truthy s
  | None => false
  end.

(** [o || d] where [o] is a possibly absent string. *)
Definition or_string (o : option string) (d : string) : string :=
  match o with
  | Some s => if truthy s then s else d
  | None => d
  end.

(** A number is truthy unless it is [0], [-0] or [NaN]. *)
Definition truthy_number (x : float) : bool :=
  negb (PrimFloat.eqb x 0%float) && PrimFloat.eqb x x.

(** [o || d] where [o] is a possibly absent number. *)
Definition or_number (o : option float) (d : float) : float :=
  match o with
  | Some x => if truthy_number x then x else d
  | None => d
  end.

(** [String.prototype.toLowerCase] on byte strings: the letters A-Z are
    mapped to a-z, every other byte is kept. *)
Definition lower_char (c : Ascii.ascii) : Ascii.ascii :=
  let n := Ascii.N_of_ascii c in
  if (N.leb 65 n && N.leb n 90)%bool then Ascii.ascii_of_N (n + 32)%N else c.

Fixpoint toLowerCase (s : string) : string :=
  match s with
  | EmptyString => EmptyString
  | String c s' => String (lower_char c) (toLowerCase s')
  end.

(** [s.includes(sub)]. *)
Fixpoint includes (s sub : string) : bool :=
  String.prefix sub s
  || match s with
     | EmptyString => false
     | String _ s' => includes s' sub
     end.

End Js.

(* ===================================================================== *)
(** ** localStorage *)
(* ===================================================================== *)

Module LocalStorage.

Definition getItem (k : string) (st : gmap string string) : option string :=
  st !! k.

Definition setItem (k v : string) (st : gmap string string) : gmap string string :=
  <[k := v]> st.

Definition removeItem (k : string) (st : gmap string string) : gmap string string :=
  delete k st.

End LocalStorage.

(* ===================================================================== *)
(** ** HTTP outcomes and the shared application state *)
(* ===================================================================== *)

(** What a failed call hands to the [error] callback: an [HttpErrorResponse]
    with its [status], or a plain [Error] with its message. *)
Inductive Failure : Type :=
| HttpErrorResponse (status : Z)
| JsError (message : string).

Definition status (e : Failure) : option Z :=
  match e with
  | HttpErrorResponse st => Some st
  | JsError _ => None
  end.

(** The single outcome of an [Observable] returned by [HttpClient]. *)
Inductive Outcome (A : Type) : Type :=
| Next (a : A)
| Error (e : Failure).

Arguments Next {A} a.
Arguments Error {A} e.

Record User : Type := mkUser {
  user_id : Z;
  username : string;
  email : string;
  first_name : string;
  last_name : string;
  role : string;
  is_staff : bool;
  is_superuser : bool
}.

(** [{ ...userInfo, role }] *)
Definition with_role (u : User) (r : string) : User :=
  {| user_id := user_id u; username := username u; email := email u;
     first_name := first_name u; last_name := last_name u; role := r;
     is_staff := is_staff u; is_superuser := is_superuser u |}.

Record LoginResponse : Type := mkLoginResponse {
  access : string;
  refresh : string
}.

(** [JSON.stringify] and [JSON.parse] on user objects.  [JSON_parse] yields
    [None] when the call throws or yields a falsy value: in both cases the
    callers below leave the state as it is.  The two cases are told apart,
    and the throwing one is followed to the caller, with [JsonStrict]
    further down. *)
Class Json : Type := {
  JSON_stringify : User -> string;
  JSON_parse : string -> option User
}.

(** The REST endpoints the session store talks to. [get_user] receives the
    value of the [Authorization] header, [post_refresh] the refresh token and
    answers with the [access] member of the response. *)
Record Backend : Type := mkBackend {
  post_login : string -> string -> Outcome LoginResponse;
  get_user : string -> Outcome User;
  post_refresh : string -> Outcome string
}.

(** The state shared by the services and views: persisted storage, the
    current values of [isLoggedIn$], [userRole$] and [currentUser$], and the
    router's location. *)
Record App : Type := mkApp {
  localStorage : gmap string string;
  isLoggedIn : bool;
  userRole : string;
  currentUser : option User;
  location : string
}.

Definition set_localStorage (st : gmap string string) (s : App) : App :=
  {| localStorage := st; isLoggedIn := isLoggedIn s; userRole := userRole s;
     currentUser := currentUser s; location := location s |}.

Definition navigate (path : string) (s : App) : App :=
  {| localStorage := localStorage s; isLoggedIn := isLoggedIn s;
     userRole := userRole s; currentUser := currentUser s; location := path |}.

(* ===================================================================== *)
(** ** AuthService *)
(* ===================================================================== *)

Module AuthService.

Definition tokenKey : string := "access_token".
Definition refreshKey : string := "refresh_token".
Definition userKey : string := "user_data".

(** Role derivation: [userInfo.is_staff || userInfo.is_superuser ? 'admin' : 'farmer']. *)
Definition derive_role (userInfo : User) : string :=
  if (is_staff userInfo || is_superuser userInfo)%bool then "admin" else "farmer".

(** [login(username, password)], subscribed and run to completion.  Returns
    the state afterwards and what the subscriber receives. *)
Definition login `{Json} (be : Backend) (uname password : string) (s : App)
  : App * Outcome User :=
  match post_login be uname password with
  | Error e => (s, Error e)
  | Next tokenResponse =>
    let accessToken := access tokenResponse in
    let refreshToken := refresh tokenResponse in
    let s1 :=
      set_localStorage
        (LocalStorage.setItem refreshKey refreshToken
           (LocalStorage.setItem tokenKey accessToken (localStorage s))) s in
    match get_user be ("Bearer " +:+ accessToken) with
    | Error e => (s1, Error e)
    | Next userInfo =>
      let userData := with_role userInfo (derive_role userInfo) in
      let st := LocalStorage.setItem userKey (JSON_stringify userData) (localStorage s1) in
      ({| localStorage := st; isLoggedIn := true; userRole := role userData;
          currentUser := Some userData; location := "/dashboard" |},
       Next userInfo)
    end
  end.

Definition logout (s : App) : App :=
  let st :=
    LocalStorage.removeItem userKey
      (LocalStorage.removeItem refreshKey
         (LocalStorage.removeItem tokenKey (localStorage s))) in
  {| localStorage := st; isLoggedIn := false; userRole := "";
     currentUser := None; location := "/login" |}.

Definition refreshToken (be : Backend) (s : App) : App * Outcome string :=
  match LocalStorage.getItem refreshKey (localStorage s) with
  | Some refreshToken =>
    if Js.truthy refreshToken then
      match post_refresh be refreshToken with
      | Next response_access =>
        (set_localStorage
           (LocalStorage.setItem tokenKey response_access (localStorage s)) s,
         Next response_access)
      | Error e => (logout s, Error e)
      end
    else (logout s, Error (JsError "No refresh token"))
  | None => (logout s, Error (JsError "No refresh token"))
  end.

(** [getCurrentUser()] where [JSON.parse] returns.  On a text where it
    throws [JSON_parse] is [None] here; the exception, which the method does
    not catch, is followed in [AuthServiceRest.getCurrentUser]. *)
Definition getCurrentUser `{Json} (s : App) : option User :=
  match LocalStorage.getItem userKey (localStorage s) with
  | Some userData => if Js.truthy userData then JSON_parse userData else None
  | None => None
  end.

Definition getToken (s : App) : option string :=
  LocalStorage.getItem tokenKey (localStorage s).

Definition isTokenValid (s : App) : bool :=
  match getToken s with
  | Some token => Js.truthy token
  | None => false
  end.

(** [checkTokenValidity()] where [getCurrentUser()] returns; with the
    exception passed on it is [AuthServiceRest.checkTokenValidity]. *)
Definition checkTokenValidity `{Json} (s : App) : App :=
  if isTokenValid s then
    match getCurrentUser s with
    | Some user =>
      {| localStorage := localStorage s; isLoggedIn := true;
         userRole := role user; currentUser := Some user;
         location := location s |}
    | None => s
    end
  else s.

(** The constructor: the three subjects start at [false], [''] and [null],
    then the persisted token is checked.  This is the state of the service
    whenever the constructor returns; [AuthServiceRest.constructor] says
    when it does. *)
Definition startup `{Json} (persisted : gmap string string) (loc : string) : App :=
  checkTokenValidity
    {| localStorage := persisted; isLoggedIn := false; userRole := "";
       currentUser := None; location := loc |}.

End AuthService.

(* ===================================================================== *)
(** ** ApiService *)
(* ===================================================================== *)

Module ApiService.

Definition apiUrl : string := "http://localhost:8000/api".

(** [getHeaders()], reading the token from storage at the time of the call. *)
Definition getHeaders (st : gmap string string) : gmap string string :=
  let token := LocalStorage.getItem "access_token" st in
  <["Authorization" :=
      match token with
      | Some t => if Js.truthy t then "Bearer " +:+ t else ""
      | None => ""
      end]>
    (<["Content-Type" := "application/json"]> ∅).

Inductive Verb : Type := GET | POST | PUT | DELETE.

(** Request bodies: none, [{}], [{ force_regenerate: true }], or caller data. *)
Inductive Body : Type :=
| NoBody
| EmptyObject
| ForceRegenerate
| Data (json : string).

Record Request : Type := mkRequest {
  verb : Verb;
  url : string;
  body : Body;
  headers : gmap string string
}.

(** The request methods that pass [{ headers: this.getHeaders() }]. *)
Inductive Call : Type :=
| getDashboardStats
| getFarms
| getFarmById (id : Z)
| createFarm (farmData : string)
| updateFarm (id : Z) (farmData : string)
| deleteFarm (id : Z)
| getPlots
| getPlotById (id : Z)
| getPlotsByFarm (farmId : Z)
| createPlot (plotData : string)
| updatePlot (id : Z) (plotData : string)
| deletePlot (id : Z)
| getSensorReadings
| getSensorReadingsByPlot (plotId : Z)
| createSensorReading (readingData : string)
| getAnomalies
| getAnomaliesByPlot (plotId : Z)
| generateRecommendation (anomalyId : Z)
| regenerateRecommendation (anomalyId : Z)
| resolveAnomaly (anomalyId : Z)
| getRecommendationsByAnomaly (anomalyId : Z)
| applyRecommendation (recommendationId : Z).

(** The request each method hands to [HttpClient].  The ids are the integer
    keys the backend assigns, rendered in decimal. *)
Definition request (st : gmap string string) (c : Call) : Request :=
  let h := getHeaders st in
  match c with
  | getDashboardStats => mkRequest GET (apiUrl +:+ "/dashboard/stats/") NoBody h
  | getFarms => mkRequest GET (apiUrl +:+ "/farms/") NoBody h
  | getFarmById id => mkRequest GET (apiUrl +:+ "/farms/" +:+ pretty id +:+ "/") NoBody h
  | createFarm d => mkRequest POST (apiUrl +:+ "/farms/") (Data d) h
  | updateFarm id d => mkRequest PUT (apiUrl +:+ "/farms/" +:+ pretty id +:+ "/") (Data d) h
  | deleteFarm id => mkRequest DELETE (apiUrl +:+ "/farms/" +:+ pretty id +:+ "/") NoBody h
  | getPlots => mkRequest GET (apiUrl +:+ "/plots/") NoBody h
  | getPlotById id => mkRequest GET (apiUrl +:+ "/plots/" +:+ pretty id +:+ "/") NoBody h
  | getPlotsByFarm farmId => mkRequest GET (apiUrl +:+ "/plots/?farm=" +:+ pretty farmId) NoBody h
  | createPlot d => mkRequest POST (apiUrl +:+ "/plots/") (Data d) h
  | updatePlot id d => mkRequest PUT (apiUrl +:+ "/plots/" +:+ pretty id +:+ "/") (Data d) h
  | deletePlot id => mkRequest DELETE (apiUrl +:+ "/plots/" +:+ pretty id +:+ "/") NoBody h
  | getSensorReadings => mkRequest GET (apiUrl +:+ "/sensor-readings/") NoBody h
  | getSensorReadingsByPlot plotId =>
    mkRequest GET (apiUrl +:+ "/sensor-readings/?field_plot=" +:+ pretty plotId) NoBody h
  | createSensorReading d => mkRequest POST (apiUrl +:+ "/sensor-readings/") (Data d) h
  | getAnomalies => mkRequest GET (apiUrl +:+ "/anomalies/") NoBody h
  | getAnomaliesByPlot plotId =>
    mkRequest GET (apiUrl +:+ "/anomalies/?field_plot=" +:+ pretty plotId) NoBody h
  | generateRecommendation anomalyId =>
    mkRequest POST (apiUrl +:+ "/anomalies/" +:+ pretty anomalyId +:+ "/recommend/") EmptyObject h
  | regenerateRecommendation anomalyId =>
    mkRequest POST (apiUrl +:+ "/anomalies/" +:+ pretty anomalyId +:+ "/recommend/")
      ForceRegenerate h
  | resolveAnomaly anomalyId =>
    mkRequest POST (apiUrl +:+ "/anomalies/" +:+ pretty anomalyId +:+ "/resolve/") EmptyObject h
  | getRecommendationsByAnomaly anomalyId =>
    mkRequest GET (apiUrl +:+ "/recommendations/?anomaly=" +:+ pretty anomalyId) NoBody h
  | applyRecommendation recommendationId =>
    mkRequest POST (apiUrl +:+ "/recommendations/" +:+ pretty recommendationId +:+ "/apply/")
      EmptyObject h
  end.

(** [login] and [register] pass no headers. *)
Definition login (credentials : string) : Request :=
  mkRequest POST (apiUrl +:+ "/token/") (Data credentials) ∅.

Definition register (userData : string) : Request :=
  mkRequest POST (apiUrl +:+ "/register/") (Data userData) ∅.

Definition logout (s : App) : App :=
  set_localStorage
    (LocalStorage.removeItem "user"
       (LocalStorage.removeItem "access_token" (localStorage s))) s.

Definition isAuthenticated (s : App) : bool :=
  Js.truthy_field (LocalStorage.getItem "access_token" (localStorage s)).

End ApiService.

(* ===================================================================== *)
(** ** Recommendation payloads *)
(* ===================================================================== *)

(** A raw recommendation payload as the backend may send it; an absent
    member is [None]. *)
Module Payload.
Record t : Type := mk {
  recommended_action : option string;
  recommendation : option string;
  action : option string;
  explanation_text : option string;
  explanation : option string;
  confidence : option float
}.
End Payload.

(** The recommendation object the views attach to an anomaly. *)
Module Rec.
Record t : Type := mk {
  recommended_action : string;
  explanation_text : string;
  confidence : float;
  timestamp : option string;
  source : option string
}.
End Rec.

(** An anomaly object as the alerts and plot-details views use it. *)
Record Anomaly : Type := mkAnomaly {
  anomaly_id : Z;
  anomaly_type : option string;
  severity : option string;
  loadingRecommendation : bool;
  agent_recommendation : option Rec.t
}.

Definition set_recommendation (r : option Rec.t) (loading : bool) (a : Anomaly) : Anomaly :=
  {| anomaly_id := anomaly_id a; anomaly_type := anomaly_type a;
     severity := severity a; loadingRecommendation := loading;
     agent_recommendation := r |}.

(** [list.findIndex(a => a.id === id)] *)
Definition findIndex (id : Z) (l : list Anomaly) : option nat :=
  fst <$> list_find (fun a => anomaly_id a = id) l.

(* ===================================================================== *)
(** ** AlertsComponent *)
(* ===================================================================== *)

Set Warnings "-inexact-float".

Module AlertsComponent.

(** [formatRecommendation(response)]; [now] is [new Date().toISOString()].
    In each branch the member that was tested holds a non-empty string, which
    is what [Js.or_string _ ""] returns for it. *)
Definition formatRecommendation (now : string) (response : option Payload.t) : Rec.t :=
  match response with
  | Some r =>
    if Js.truthy_field (Payload.recommended_action r) then
      Rec.mk (Js.or_string (Payload.recommended_action r) "")
             (Js.or_string (Payload.explanation_text r) "AI-generated recommendation")
             (Js.or_number (Payload.confidence r) 0.8)
             (Some now) None
    else if Js.truthy_field (Payload.recommendation r) then
      Rec.mk (Js.or_string (Payload.recommendation r) "")
             (Js.or_string (Payload.explanation r) "Generated by AI agent")
             (Js.or_number (Payload.confidence r) 0.7)
             (Some now) None
    else if Js.truthy_field (Payload.action r) then
      Rec.mk (Js.or_string (Payload.action r) "")
             (Js.or_string (Payload.explanation r) "AI analysis completed")
             (Js.or_number (Payload.confidence r) 0.75)
             (Some now) None
    else
      Rec.mk "Monitor anomaly and adjust farming practices"
             "Temperature/moisture imbalance detected"
             0.75 (Some now) None
  | None =>
    Rec.mk "Monitor anomaly and adjust farming practices"
           "Temperature/moisture imbalance detected"
           0.75 (Some now) None
  end.

(** An entry of the ordered rule table of [getMockRecommendation]. *)
Module Rule.
Record t : Type := mk {
  condition : bool;
  action : string;
  explanation : string;
  confidence : float
}.
End Rule.

(** An entry of the severity-keyed default table. *)
Module Default.
Record t : Type := mk {
  action : string;
  explanation : string;
  confidence : float
}.
End Default.

Definition mockRecommendations (type : string) : list Rule.t :=
  [ Rule.mk (Js.includes type "moisture" && Js.includes type "low")
      "Increase irrigation by 20-30% for the next 48 hours"
      "Soil moisture below optimal range. Plants showing early signs of water stress."
      0.85;
    Rule.mk (Js.includes type "moisture" && Js.includes type "high")
      "Stop irrigation immediately and improve drainage systems"
      "Excess soil moisture detected. Risk of root rot and fungal diseases."
      0.82;
    Rule.mk (Js.includes type "temperature" && Js.includes type "high")
      "Deploy shade nets and increase irrigation frequency"
      "High temperature stress detected. Crops at risk of heat damage."
      0.8;
    Rule.mk (Js.includes type "temperature" && Js.includes type "low")
      "Activate frost protection and reduce irrigation"
      "Low temperature alert. Protect sensitive crops from frost damage."
      0.78;
    Rule.mk (Js.includes type "humidity" && Js.includes type "high")
      "Improve ventilation and monitor for fungal diseases"
      "High humidity promotes fungal growth and reduces transpiration."
      0.75 ].

Definition default_high : Default.t :=
  Default.mk "Immediate field inspection required. Consider emergency measures."
             "Critical anomaly detected. High impact on crop health."
             0.9.

Definition default_medium : Default.t :=
  Default.mk "Schedule inspection within 24 hours and adjust practices."
             "Moderate risk anomaly. Monitor closely."
             0.75.

Definition default_low : Default.t :=
  Default.mk "Monitor trend and adjust during next regular maintenance."
             "Minor anomaly. Low immediate risk."
             0.65.

(** The own members of the object literal [defaultActions].  What a lookup
    by an arbitrary severity finds, inherited members included, is
    [MockObject.defaultActions] below. *)
Definition defaultActions : gmap string Default.t :=
  {[ "high" := default_high; "medium" := default_medium; "low" := default_low ]}.

(** [defaultActions[severity] || defaultActions.medium], for a severity that
    does not name an inherited member ([MockObject.inherited]); for every
    severity it is [MockObject.defaultRec]. *)
Definition defaultRec (severity : string) : Default.t :=
  match defaultActions !! severity with
  | Some e => e
  | None => default_medium
  end.

(** [anomaly.anomaly_type?.toLowerCase() || ''] *)
Definition type_of (anomaly : Anomaly) : string :=
  Js.or_string (Js.toLowerCase <$> anomaly_type anomaly) "".

(** [anomaly.severity || 'medium'] *)
Definition severity_of (anomaly : Anomaly) : string :=
  Js.or_string (severity anomaly) "medium".

(** [getMockRecommendation(anomaly)] as a record whose members are all
    defined; [now] is [new Date().toISOString()].  It is the object the
    source returns whenever a rule matches or the severity does not name an
    inherited member; [MockObject.getMockRecommendation] gives the object
    for every anomaly, with the members that are undefined. *)
Definition getMockRecommendation (now : string) (anomaly : Anomaly) : Rec.t :=
  let type := type_of anomaly in
  let severity := severity_of anomaly in
  match List.find Rule.condition (mockRecommendations type) with
  | Some matchedRec =>
    Rec.mk (Rule.action matchedRec) (Rule.explanation matchedRec)
           (Rule.confidence matchedRec) (Some now) (Some "ai_agent_mock")
  | None =>
    Rec.mk (Default.action (defaultRec severity))
           (Default.explanation (defaultRec severity))
           (Default.confidence (defaultRec severity))
           (Some now) (Some "ai_agent_mock")
  end.

(** The members of the view the handlers below touch. [requested] counts the
    [getAnomalies] requests issued by [loadAnomalies]. *)
Record View : Type := mkView {
  anomalies : list Anomaly;
  refreshCountdown : Z;
  isLoading : bool;
  errorMessage : string;
  processingAnomalies : gset Z;
  requested : nat
}.

(** Field initializers of the class. *)
Definition initial : View := mkView [] 30 true "" ∅ 0.

Definition set_refreshCountdown (c : Z) (v : View) : View :=
  mkView (anomalies v) c (isLoading v) (errorMessage v) (processingAnomalies v)
         (requested v).

Definition set_processing (p : gset Z) (v : View) : View :=
  mkView (anomalies v) (refreshCountdown v) (isLoading v) (errorMessage v) p
         (requested v).

(** [loadAnomalies()] up to the point where the request is sent. *)
Definition loadAnomalies (v : View) : View :=
  mkView (anomalies v) (refreshCountdown v) true "" (processingAnomalies v)
         (S (requested v)).

(** The [error] callback of [loadAnomalies]. *)
Definition loadAnomalies_error (err : Failure) (v : View) : View :=
  mkView (anomalies v) (refreshCountdown v) false
         "Failed to load alerts. Please try again." (processingAnomalies v)
         (requested v).

(** The timer callback of [startAutoRefresh], in its two statements. *)
Definition decrement (v : View) : View :=
  set_refreshCountdown (refreshCountdown v - 1) v.

Definition refresh_if_due (v : View) : View :=
  if (refreshCountdown v <=? 0)%Z then set_refreshCountdown 30 (loadAnomalies v)
  else v.

Definition tick (v : View) : View := refresh_if_due (decrement v).

(** The scheduler between two timer callbacks ([Waiting]) and inside one,
    after [this.refreshCountdown--] ([Decremented]). *)
Inductive Sched : Type :=
| Waiting (v : View)
| Decremented (v : View).

Definition view_of (s : Sched) : View :=
  match s with
  | Waiting v => v
  | Decremented v => v
  end.

Inductive step : Sched -> Sched -> Prop :=
| step_decrement v : step (Waiting v) (Decremented (decrement v))
| step_check v : step (Decremented v) (Waiting (refresh_if_due v)).

(** States the scheduler reaches from the view as [ngOnInit] leaves it. *)
Inductive reachable : Sched -> Prop :=
| reachable_init : reachable (Waiting (loadAnomalies initial))
| reachable_step s s' : reachable s -> step s s' -> reachable s'.

(** [generateRecommendation(anomaly)] run to completion with the outcome
    [res] of the API call.  The anomaly object handed in by the template is
    returned as the callbacks leave it. *)
Definition generateRecommendation (now : string) (res : Outcome (option Payload.t))
    (anomaly : Anomaly) (v : View) : Anomaly * View :=
  if (loadingRecommendation anomaly
      || bool_decide (anomaly_id anomaly ∈ processingAnomalies v))%bool
  then (anomaly, v)
  else
    let a1 := set_recommendation (agent_recommendation anomaly) true anomaly in
    let v1 := set_processing ({[anomaly_id anomaly]} ∪ processingAnomalies v) v in
    let v2 := set_processing (processingAnomalies v1 ∖ {[anomaly_id anomaly]}) v1 in
    match res with
    | Next response =>
      (set_recommendation (Some (formatRecommendation now response)) false a1, v2)
    | Error _ =>
      (set_recommendation (Some (getMockRecommendation now a1)) false a1, v2)
    end.

Definition logout (s : App) : App :=
  navigate "/login" (AuthService.logout s).

End AlertsComponent.

(* ===================================================================== *)
(** ** PlotDetailsComponent *)
(* ===================================================================== *)

Module PlotDetailsComponent.

Record View : Type := mkView {
  anomalies : list Anomaly;
  selectedAnomaly : option Anomaly
}.

(** The three response formats handled inline by the [next] callback of
    [generateRecommendation]. *)
Definition normalize (response : option Payload.t) : Rec.t :=
  match response with
  | Some r =>
    if Js.truthy_field (Payload.recommended_action r) then
      Rec.mk (Js.or_string (Payload.recommended_action r) "")
             (Js.or_string (Payload.explanation_text r) "AI-generated recommendation")
             (Js.or_number (Payload.confidence r) 0.8)
             None None
    else if Js.truthy_field (Payload.recommendation r) then
      Rec.mk (Js.or_string (Payload.recommendation r) "")
             "Generated by AI agent" 0.7 None None
    else
      Rec.mk "Monitor anomaly and adjust irrigation"
             "Temperature/moisture imbalance detected" 0.75 None None
  | None =>
    Rec.mk "Monitor anomaly and adjust irrigation"
           "Temperature/moisture imbalance detected" 0.75 None None
  end.

(** The table the [error] callback draws from. *)
Definition mockRecommendations : list Rec.t :=
  [ Rec.mk "Increase irrigation by 20% for 2 days" "Low soil moisture detected" 0.8 None None;
    Rec.mk "Reduce irrigation and check drainage" "Excess soil moisture" 0.75 None None;
    Rec.mk "Install temporary shade" "High temperature stress" 0.7 None None;
    Rec.mk "Monitor for frost protection" "Low temperature alert" 0.65 None None ].

Definition set_agent_recommendation (r : Rec.t) (a : Anomaly) : Anomaly :=
  set_recommendation (Some r) (loadingRecommendation a) a.

(** [generateRecommendation()] run to completion with the outcome [res] of
    the API call; [draw] is
    [Math.floor(Math.random() * mockRecommendations.length)]. *)
Definition generateRecommendation (draw : nat) (res : Outcome (option Payload.t))
    (v : View) : View :=
  match selectedAnomaly v with
  | None => v
  | Some sel =>
    if loadingRecommendation sel then v
    else
      let sel1 := set_recommendation (agent_recommendation sel) true sel in
      match res with
      | Next response =>
        let recommendation := normalize response in
        let sel2 := set_recommendation (Some recommendation) false sel1 in
        let l :=
          match findIndex (anomaly_id sel2) (anomalies v) with
          | Some anomalyIndex =>
            alter (set_agent_recommendation recommendation) anomalyIndex (anomalies v)
          | None => anomalies v
          end in
        mkView l (Some sel2)
      | Error _ =>
        match mockRecommendations !! draw with
        | Some mockRec =>
          mkView (anomalies v)
            (Some (set_recommendation
                     (Some (Rec.mk (Rec.recommended_action mockRec)
                                   (Rec.explanation_text mockRec)
                                   (Rec.confidence mockRec) None None))
                     false sel1))
        | None => mkView (anomalies v) (Some sel1)
        end
      end
  end.

Definition logout (s : App) : App :=
  navigate "/login"
    (set_localStorage (LocalStorage.removeItem "access_token" (localStorage s)) s).

End PlotDetailsComponent.

(* ===================================================================== *)
(** ** DashboardComponent *)
(* ===================================================================== *)

Module DashboardComponent.

(** An entry of [recentAnomalies]: here [agent_recommendation] is a string. *)
Module Item.
Record t : Type := mk {
  id : Z;
  agent_recommendation : option string
}.
End Item.

(** [recentAnomalies] and the messages shown with [alert(...)]. *)
Record View : Type := mkView {
  recentAnomalies : list Item.t;
  alerts : list string
}.

Definition logout (s : App) : App :=
  navigate "/login"
    (set_localStorage (LocalStorage.removeItem "access_token" (localStorage s)) s).

(** The [error] callback of [loadDashboardData]. *)
Definition loadDashboardData_error (err : Failure) (s : App) : App :=
  match status err with
  | Some st => if (st =? 401)%Z then logout s else s
  | None => s
  end.

(** [generateRecommendation(anomalyId)] run to completion with the outcome
    [res] of the API call. *)
Definition generateRecommendation (anomalyId : Z) (res : Outcome Payload.t)
    (v : View) : View :=
  match res with
  | Next response =>
    match fst <$> list_find (fun a => Item.id a = anomalyId) (recentAnomalies v) with
    | Some index =>
      mkView
        (alter (fun a => Item.mk (Item.id a) (Payload.recommended_action response))
               index (recentAnomalies v))
        (alerts v)
    | None => v
    end
  | Error _ =>
    mkView (recentAnomalies v)
           (alerts v ++ ["Could not generate recommendation. Please try again."])
  end.

End DashboardComponent.

(* ===================================================================== *)
(** ** Operations on the session and the states they reach *)
(* ===================================================================== *)

(** The operations that touch the session: the three of [AuthService], and
    the logout handlers of [ApiService] and of the views. *)
Inductive Op : Type :=
| OpLogin (uname password : string)
| OpRefreshToken
| OpLogout
| OpApiLogout
| OpAlertsLogout
| OpDashboardLogout
| OpPlotDetailsLogout
| OpDashboardLoadError (err : Failure).

Definition run `{Json} (be : Backend) (o : Op) (s : App) : App :=
  match o with
  | OpLogin u p => fst (AuthService.login be u p s)
  | OpRefreshToken => fst (AuthService.refreshToken be s)
  | OpLogout => AuthService.logout s
  | OpApiLogout => ApiService.logout s
  | OpAlertsLogout => AlertsComponent.logout s
  | OpDashboardLogout => DashboardComponent.logout s
  | OpPlotDetailsLogout => PlotDetailsComponent.logout s
  | OpDashboardLoadError err => DashboardComponent.loadDashboardData_error err s
  end.

(** States reached from a start-up on any persisted storage. *)
Inductive reachable `{Json} (be : Backend) : App -> Prop :=
| reachable_startup persisted loc :
    reachable be (AuthService.startup persisted loc)
| reachable_run o s : reachable be s -> reachable be (run be o s).

(** The session invariant: a true login flag comes with a non-empty access
    token in storage. *)
Definition session_invariant (s : App) : Prop :=
  isLoggedIn s = true ->
  exists t, LocalStorage.getItem AuthService.tokenKey (localStorage s) = Some t /\ t <> "".

(** The logged-out state: nothing persisted under the three keys, and the
    subjects at [false], [''] and [null]. *)
Definition logged_out (s : App) : Prop :=
  LocalStorage.getItem AuthService.tokenKey (localStorage s) = None /\
  LocalStorage.getItem AuthService.refreshKey (localStorage s) = None /\
  LocalStorage.getItem AuthService.userKey (localStorage s) = None /\
  isLoggedIn s = false /\ userRole s = "" /\ currentUser s = None.

(** A backend whose token endpoints only hand out non-empty access tokens. *)
Definition issues_tokens (be : Backend) : Prop :=
  (forall u p tok, post_login be u p = Next tok -> access tok <> "") /\
  (forall r a, post_refresh be r = Next a -> a <> "").

(** The operations that go through [AuthService]. *)
Definition through_AuthService (o : Op) : bool :=
  match o with
  | OpLogin _ _ | OpRefreshToken | OpLogout | OpAlertsLogout => true
  | _ => false
  end.

(** The range of the alerts countdown, by the phase of the timer callback. *)
Definition in_range (s : AlertsComponent.Sched) : Prop :=
  match s with
  | AlertsComponent.Waiting v => 1 <= AlertsComponent.refreshCountdown v <= 30
  | AlertsComponent.Decremented v => 0 <= AlertsComponent.refreshCountdown v <= 29
  end.

(* ===================================================================== *)
(** ** Sample data used to instantiate the statements below *)
(* ===================================================================== *)

Definition farmer_joe : User :=
  mkUser 7 "joe" "joe@farm.example" "Joe" "Martin" "" false false.

(** A backend that accepts the credentials and serves the profile. *)
Definition backend_up : Backend :=
  mkBackend (fun _ _ => Next (mkLoginResponse "acc-1" "ref-1"))
            (fun _ => Next farmer_joe)
            (fun _ => Next "acc-2").

(** A backend that accepts the credentials and then fails the profile fetch. *)
Definition backend_profile_down : Backend :=
  mkBackend (fun _ _ => Next (mkLoginResponse "acc-1" "ref-1"))
            (fun _ => Error (HttpErrorResponse 500))
            (fun _ => Error (HttpErrorResponse 401)).

Definition low_soil_moisture (sev : option string) : Anomaly :=
  mkAnomaly 1 (Some "low_soil_moisture") sev false None.

(* ===================================================================== *)
(** ** Calls that may throw, and JSON.parse in full *)
(* ===================================================================== *)

(** How a call ends: it returns a value or it throws. *)
Inductive Completion (A : Type) : Type :=
| Returns (a : A)
| Throws.

Arguments Returns {A} a.
Arguments Throws {A}.

(** The members of a parsed user that the role queries read.  A member the
    parsed value does not carry reads as [undefined], here [None]. *)
Module StoredUser.
Record t : Type := mk {
  role : option string;
  is_staff : option bool;
  is_superuser : option bool
}.
End StoredUser.

(** The members of a user object that has all of them. *)
Definition members_of (u : User) : StoredUser.t :=
  StoredUser.mk (Some (role u)) (Some (is_staff u)) (Some (is_superuser u)).

(** [JSON.parse] in full.  It throws a [SyntaxError] exactly on the texts
    with [JSON_parse_throws]; on every other text it returns a value, which
    is falsy when [JSON_parse] is [None].  [JSON_parse_members] gives the
    [role], [is_staff] and [is_superuser] members the returned value really
    carries, which [JSON_parse], typed as [User], cannot express. *)
Class JsonStrict `{Json} : Type := {
  JSON_parse_throws : string -> bool;
  JSON_parse_members : string -> StoredUser.t
}.

(* ===================================================================== *)
(** ** Further members of AuthService *)
(* ===================================================================== *)

Module AuthServiceRest.

(** [getCurrentUser()] with the exception of [JSON.parse] passed on: the
    method has no [try]. *)
Definition getCurrentUser `{JsonStrict} (s : App) : Completion (option User) :=
  match LocalStorage.getItem AuthService.userKey (localStorage s) with
  | Some userData =>
    if Js.truthy userData then
      if JSON_parse_throws userData then Throws else Returns (JSON_parse userData)
    else Returns None
  | None => Returns None
  end.

(** [checkTokenValidity()] with the exception passed on. *)
Definition checkTokenValidity `{JsonStrict} (s : App) : Completion App :=
  if AuthService.isTokenValid s then
    match getCurrentUser s with
    | Throws => Throws
    | Returns (Some user) =>
      Returns {| localStorage := localStorage s; isLoggedIn := true;
                 userRole := role user; currentUser := Some user;
                 location := location s |}
    | Returns None => Returns s
    end
  else Returns s.

(** The constructor with the exception passed on: when it throws, no service
    object comes into being. *)
Definition constructor `{JsonStrict} (persisted : gmap string string) (loc : string)
  : Completion App :=
  checkTokenValidity
    {| localStorage := persisted; isLoggedIn := false; userRole := "";
       currentUser := None; location := loc |}.





(** [getAuthHeaders()]: the template literal renders a missing token as
    the text [null]. *)
Definition getAuthHeaders (s : App) : gmap string string :=
  let token := AuthService.getToken s in
  <["Authorization" :=
      "Bearer " +:+ match token with Some t => t | None => "null" end]>
    (<["Content-Type" := "application/json"]> ∅).

(** [getHeaders()] of [AuthService]. *)
Definition getHeaders (s : App) : gmap string string :=
  match AuthService.getToken s with
  | Some token =>
    if Js.truthy token then
      <["Authorization" := "Bearer " +:+ token]>
        (<["Content-Type" := "application/json"]> ∅)
    else <["Content-Type" := "application/json"]> ∅
  | None => <["Content-Type" := "application/json"]> ∅
  end.

Definition apiUrl : string := "http://localhost:8000/api/auth".

(** The request [refreshUserProfile()] sends. *)
Definition refreshUserProfile_request (s : App) : ApiService.Request :=
  ApiService.mkRequest ApiService.GET (apiUrl +:+ "/auth/user/") ApiService.NoBody
    (getAuthHeaders s).

(** [refreshUserProfile()] run to completion with the outcome [res] of its
    request. *)
Definition refreshUserProfile `{Json} (res : Outcome User) (s : App)
  : App * Outcome User :=
  match res with
  | Next userInfo =>
    let updatedUser := with_role userInfo (AuthService.derive_role userInfo) in
    ({| localStorage :=
          LocalStorage.setItem AuthService.userKey (JSON_stringify updatedUser)
            (localStorage s);
        isLoggedIn := isLoggedIn s; userRole := userRole s;
        currentUser := Some updatedUser; location := location s |},
     Next userInfo)
  | Error e => (s, Error e)
  end.

End AuthServiceRest.

(* ===================================================================== *)
(** ** Further members of AlertsComponent *)
(* ===================================================================== *)

Module AlertsComponentRest.

(** The [next] callback of [loadAnomalies]: every anomaly starts without a
    recommendation. *)
Definition loadAnomalies_next (anomalies : list Anomaly) (v : AlertsComponent.View)
  : AlertsComponent.View :=
  AlertsComponent.mkView
    (set_recommendation None false <$> anomalies)
    (AlertsComponent.refreshCountdown v) false (AlertsComponent.errorMessage v)
    (AlertsComponent.processingAnomalies v) (AlertsComponent.requested v).

(** [catchError(() => of([]))] on one request of the batch. *)
Definition or_empty (o : Outcome (list Payload.t)) : list Payload.t :=
  match o with
  | Next recommendations => recommendations
  | Error _ => []
  end.

(** [allRecommendations.forEach((recommendations, index) => ...)], from
    [index] on.  Writing to an index the list no longer has throws, which
    ends the loop with the earlier writes in place. *)
Fixpoint forEach_attach (now : string) (index : nat)
    (allRecommendations : list (list Payload.t)) (l : list Anomaly) : list Anomaly :=
  match allRecommendations with
  | [] => l
  | recommendations :: rest =>
    match recommendations with
    | [] => forEach_attach now (S index) rest l
    | recommendation :: _ =>
      match l !! index with
      | Some a =>
        forEach_attach now (S index) rest
          (<[index :=
               set_recommendation
                 (Some (AlertsComponent.formatRecommendation now (Some recommendation)))
                 (loadingRecommendation a) a]> l)
      | None => l
      end
    end
  end.

(** [loadExistingRecommendationsForAll()] run to completion with the
    outcomes of its requests, one per anomaly. *)
Definition loadExistingRecommendationsForAll (now : string)
    (outcomes : list (Outcome (list Payload.t))) (v : AlertsComponent.View)
  : AlertsComponent.View :=
  match AlertsComponent.anomalies v with
  | [] => v
  | _ =>
    AlertsComponent.mkView
      (forEach_attach now 0 (or_empty <$> outcomes) (AlertsComponent.anomalies v))
      (AlertsComponent.refreshCountdown v) (AlertsComponent.isLoading v)
      (AlertsComponent.errorMessage v) (AlertsComponent.processingAnomalies v)
      (AlertsComponent.requested v)
  end.

(** [regenerateRecommendation(anomaly)]. *)
Definition regenerateRecommendation (now : string) (res : Outcome (option Payload.t))
    (anomaly : Anomaly) (v : AlertsComponent.View) : Anomaly * AlertsComponent.View :=
  AlertsComponent.generateRecommendation now res
    (set_recommendation None (loadingRecommendation anomaly) anomaly) v.

(** The template helpers.  The recommendation objects the view builds have
    the members [recommended_action] and [explanation_text] and no [action]
    or [explanation] member. *)
Definition getRecommendationAction (anomaly : Anomaly) : string :=
  match agent_recommendation anomaly with
  | None => ""
  | Some r => Js.or_string (Some (Rec.recommended_action r)) "No recommendation available"
  end.

Definition getRecommendationExplanation (anomaly : Anomaly) : string :=
  match agent_recommendation anomaly with
  | None => ""
  | Some r => Js.or_string (Some (Rec.explanation_text r)) ""
  end.

Definition getRecommendationConfidence (anomaly : Anomaly) : float :=
  match agent_recommendation anomaly with
  | None => 0
  | Some r => Js.or_number (Some (Rec.confidence r)) 0
  end.

Definition getConfidenceLevel (anomaly : Anomaly) : string :=
  let confidence := getRecommendationConfidence anomaly in
  if PrimFloat.leb 0.8 confidence then "high"
  else if PrimFloat.leb 0.6 confidence then "medium"
  else "low".

(** [getFilteredAnomalies()], reading [selectedFilter] and [anomalies]. *)
Definition getFilteredAnomalies (selectedFilter : string) (anomalies : list Anomaly)
  : list Anomaly :=
  if decide (selectedFilter = "all") then anomalies
  else filter (fun a => severity a = Some selectedFilter) anomalies.

Definition getCountBySeverity (sev : string) (anomalies : list Anomaly) : nat :=
  length (filter (fun a => severity a = Some sev) anomalies).

Definition getCriticalCount (anomalies : list Anomaly) : nat :=
  length (filter (fun a => severity a = Some "high") anomalies).

Definition getWarningCount (anomalies : list Anomaly) : nat :=
  length (filter (fun a => severity a = Some "medium") anomalies).

Definition getInfoCount (anomalies : list Anomaly) : nat :=
  length (filter (fun a => severity a = Some "low") anomalies).

End AlertsComponentRest.

(* ===================================================================== *)
(** ** The fallback recommendation, member by member *)
(* ===================================================================== *)

Module MockObject.

(** The object [getMockRecommendation] returns.  A member read from a value
    that does not carry it is [undefined], here [None]. *)
Record t : Type := mk {
  recommended_action : option string;
  explanation_text : option string;
  confidence : option float;
  timestamp : option string;
  source : option string
}.

(** The object of a record, whose members are all defined. *)
Definition of_rec (r : Rec.t) : t :=
  mk (Some (Rec.recommended_action r)) (Some (Rec.explanation_text r))
     (Some (Rec.confidence r)) (Rec.timestamp r) (Rec.source r).

(** The names every object literal inherits from [Object.prototype] in a
    browser.  Each holds a function and [__proto__] holds the prototype
    object: all of them truthy, none with an [action], [explanation] or
    [confidence] member. *)
Definition inherited : list string :=
  [ "constructor"; "hasOwnProperty"; "isPrototypeOf"; "propertyIsEnumerable";
    "toLocaleString"; "toString"; "valueOf"; "__proto__";
    "__defineGetter__"; "__defineSetter__"; "__lookupGetter__"; "__lookupSetter__" ].

(** What [defaultActions[severity]] finds. *)
Inductive Member : Type :=
| Own (e : AlertsComponent.Default.t)
| Inherited
| Missing.

Definition defaultActions (severity : string) : Member :=
  match AlertsComponent.defaultActions !! severity with
  | Some e => Own e
  | None => if bool_decide (severity ∈ inherited) then Inherited else Missing
  end.

(** [defaultActions[severity] || defaultActions.medium]: only a missing
    member is falsy. *)
Definition defaultRec (severity : string) : Member :=
  match defaultActions severity with
  | Own e => Own e
  | Inherited => Inherited
  | Missing => Own AlertsComponent.default_medium
  end.

(** [getMockRecommendation(anomaly)]; [now] is [new Date().toISOString()]. *)
Definition getMockRecommendation (now : string) (anomaly : Anomaly) : t :=
  let type := AlertsComponent.type_of anomaly in
  let severity := AlertsComponent.severity_of anomaly in
  match List.find AlertsComponent.Rule.condition
          (AlertsComponent.mockRecommendations type) with
  | Some matchedRec =>
    mk (Some (AlertsComponent.Rule.action matchedRec))
       (Some (AlertsComponent.Rule.explanation matchedRec))
       (Some (AlertsComponent.Rule.confidence matchedRec))
       (Some now) (Some "ai_agent_mock")
  | None =>
    match defaultRec severity with
    | Own e =>
      mk (Some (AlertsComponent.Default.action e))
         (Some (AlertsComponent.Default.explanation e))
         (Some (AlertsComponent.Default.confidence e))
         (Some now) (Some "ai_agent_mock")
    | Inherited | Missing => mk None None None (Some now) (Some "ai_agent_mock")
    end
  end.

(** The template helpers of the alerts view for an anomaly whose
    [agent_recommendation] is the object [r]. *)
Definition getRecommendationAction (r : t) : string :=
  Js.or_string (recommended_action r) "No recommendation available".

Definition getRecommendationExplanation (r : t) : string :=
  Js.or_string (explanation_text r) "".

Definition getRecommendationConfidence (r : t) : float :=
  Js.or_number (confidence r) 0.

Definition getConfidenceLevel (r : t) : string :=
  let confidence := getRecommendationConfidence r in
  if PrimFloat.leb 0.8 confidence then "high"
  else if PrimFloat.leb 0.6 confidence then "medium"
  else "low".

(** The members of an entry of the rule table or of the default table. *)
Definition members (action explanation : string) (confidence : float) (now : string) : t :=
  mk (Some action) (Some explanation) (Some confidence) (Some now) (Some "ai_agent_mock").

End MockObject.

(* ===================================================================== *)
(** ** The refresh timers of DashboardComponent *)
(* ===================================================================== *)

Module DashboardTimer.

(** [refreshCountdown], whether [refreshSubscription] is still subscribed,
    the number of [setInterval] handles not yet cleared, and the number of
    calls of [loadDashboardData]. *)
Record State : Type := mkState {
  refreshCountdown : Z;
  subscribed : bool;
  intervals : nat;
  loads : nat
}.

(** The view as [ngOnInit] leaves it. *)
Definition ngOnInit : State := mkState 0 true 0 1.

(** The callback of [timer(30000, 30000)]. *)
Definition outer_fire (s : State) : State :=
  mkState 5 (subscribed s) (S (intervals s)) (loads s).

(** One run of the callback of one [setInterval] handle. *)
Definition interval_tick (s : State) : State :=
  let c := refreshCountdown s - 1 in
  if (c <=? 0)%Z then mkState c (subscribed s) (pred (intervals s)) (S (loads s))
  else mkState c (subscribed s) (intervals s) (loads s).

(** [ngOnDestroy()]: only the outer timer is unsubscribed. *)
Definition ngOnDestroy (s : State) : State :=
  mkState (refreshCountdown s) false (intervals s) (loads s).

Inductive step : State -> State -> Prop :=
| step_outer s : subscribed s = true -> step s (outer_fire s)
| step_inner s : (0 < intervals s)%nat -> step s (interval_tick s)
| step_destroy s : step s (ngOnDestroy s).

End DashboardTimer.

(* ===================================================================== *)
(** ** Further members of DashboardComponent *)
(* ===================================================================== *)

Module DashboardComponentRest.

(** The value the [next] callback of [loadDashboardData] assigns to
    [recentAnomalies]. *)
Definition recentAnomalies_of (anomalies : list DashboardComponent.Item.t)
  : list DashboardComponent.Item.t :=
  (fun a =>
     DashboardComponent.Item.mk (DashboardComponent.Item.id a)
       (match DashboardComponent.Item.agent_recommendation a with
        | Some r => if Js.truthy r then Some r else None
        | None => None
        end))
  <$> take 10 anomalies.

End DashboardComponentRest.

(** [s] contains [sub] as a contiguous part. *)
Definition contains (s sub : string) : Prop :=
  exists pre post, s = pre +:+ sub +:+ post.

(** [JSON.parse] in full for the serializer below: it throws on every text
    but the one it knows. *)
Definition sample_throws (s : string) : bool := negb (String.eqb s "{joe:farmer}").

(** A serializer that knows one user, to instantiate statements with. *)
Definition sample_json : Json :=
  {| JSON_stringify := fun u => "{" +:+ username u +:+ ":" +:+ role u +:+ "}";
     JSON_parse := fun s =>
       if String.eqb s "{joe:farmer}" then Some (with_role farmer_joe "farmer")
       else None |}.

(** The user a start-up on [persisted] restores, if any: storage holds a
    truthy access token and truthy user data that parses. *)
Definition restorable_user `{Json} (persisted : gmap string string) : option User :=
  match persisted !! "access_token" with
  | Some t =>
    if Js.truthy t then
      match persisted !! "user_data" with
      | Some d => if Js.truthy d then JSON_parse d else None
      | None => None
      end
    else None
  | None => None
  end.

Definition sample_json_strict : @JsonStrict sample_json :=
  {| JSON_parse_throws := sample_throws;
     JSON_parse_members := fun _ => members_of (with_role farmer_joe "farmer") |}.

(* ===================================================================== *)
(** * Properties *)
(* ===================================================================== *)

(** ** JavaScript conventions *)

Lemma truthy_true (s : string) : Js.truthy s = true <-> s <> "".
Proof.
  unfold Js.truthy. destruct (String.eqb_spec s ""); simpl; split; congruence.
Qed.

Lemma truthy_field_Some (s : string) : s <> "" -> Js.truthy_field (Some s) = true.
Proof. intros Hs. simpl. by apply truthy_true. Qed.

Lemma or_string_Some (s d : string) : s <> "" -> Js.or_string (Some s) d = s.
Proof. intros Hs. simpl. apply truthy_true in Hs. by rewrite Hs. Qed.

(** ** ApiService.getHeaders *)

Lemma getHeaders_Authorization (st : gmap string string) :
  ApiService.getHeaders st !! "Authorization" =
  Some match st !! "access_token" with
       | Some t => if Js.truthy t then "Bearer " +:+ t else ""
       | None => ""
       end.
Proof. unfold ApiService.getHeaders, LocalStorage.getItem. by rewrite lookup_insert_eq. Qed.

Lemma request_headers (st : gmap string string) (c : ApiService.Call) :
  ApiService.headers (ApiService.request st c) = ApiService.getHeaders st.
Proof. by destruct c. Qed.

(** An empty string stored under the key counts as no token. *)
Lemma getHeaders_empty_token (st : gmap string string) (c : ApiService.Call) :
  LocalStorage.getItem "access_token" st = Some "" ->
  ApiService.headers (ApiService.request st c) !! "Authorization" = Some "".
Proof.
  unfold LocalStorage.getItem. intros Hst.
  by rewrite request_headers, getHeaders_Authorization, Hst.
Qed.

(** C10: every authenticated request method of [ApiService] carries an
    [Authorization] header.  With no access token in storage at call time its
    value is the empty string (the header is not omitted); with a token [t]
    in storage (a non-empty string) its value is ["Bearer "] followed by [t].
    The token is read from the storage passed at the call, so a token written
    just before the call is the one sent. *)
Theorem getHeaders_bearer (st : gmap string string) (c : ApiService.Call) :
  (LocalStorage.getItem "access_token" st = None ->
   ApiService.headers (ApiService.request st c) !! "Authorization" = Some "") /\
  (forall t, LocalStorage.getItem "access_token" st = Some t -> t <> "" ->
   ApiService.headers (ApiService.request st c) !! "Authorization"
   = Some ("Bearer " +:+ t)) /\
  (forall t', t' <> "" ->
   ApiService.headers
     (ApiService.request (LocalStorage.setItem "access_token" t' st) c)
     !! "Authorization"
   = Some ("Bearer " +:+ t')).
Proof.
  rewrite !request_headers, !getHeaders_Authorization.
  unfold LocalStorage.getItem, LocalStorage.setItem. split_and!.
  - by intros ->.
  - intros t -> Ht. apply truthy_true in Ht. by rewrite Ht.
  - intros t' Ht'. rewrite request_headers, getHeaders_Authorization.
    rewrite lookup_insert_eq. apply truthy_true in Ht'. by rewrite Ht'.
Qed.

Lemma getHeaders_bearer_witness :
  ApiService.headers
    (ApiService.request ∅ (ApiService.generateRecommendation 12))
    !! "Authorization" = Some ""
  /\ ApiService.headers
       (ApiService.request {[ "access_token" := "acc-1" ]} (ApiService.getFarmById 3))
       !! "Authorization" = Some "Bearer acc-1".
Proof.
  split.
  - apply (proj1 (getHeaders_bearer ∅ (ApiService.generateRecommendation 12))).
    reflexivity.
  - apply (proj1 (proj2 (getHeaders_bearer {[ "access_token" := "acc-1" ]}
                           (ApiService.getFarmById 3))) "acc-1").
    + reflexivity.
    + discriminate.
Defined.

(** ** logout *)

Lemma AuthService_logout_storage (k : string) (s : App) :
  localStorage (AuthService.logout s) !! k =
  if bool_decide (k ∈ [AuthService.userKey; AuthService.refreshKey; AuthService.tokenKey])
  then None else localStorage s !! k.
Proof.
  unfold AuthService.logout, LocalStorage.removeItem. simpl.
  case_bool_decide as Hk.
  - rewrite !elem_of_cons, elem_of_nil in Hk.
    destruct Hk as [->|[->|[->|[]]]]; rewrite !lookup_delete; by repeat case_decide.
  - rewrite !not_elem_of_cons in Hk. destruct Hk as (? & ? & ? & _).
    by rewrite !lookup_delete_ne.
Qed.

Lemma AuthService_logout_absent (s : App) :
  localStorage s !! AuthService.tokenKey = None ->
  localStorage s !! AuthService.refreshKey = None ->
  localStorage s !! AuthService.userKey = None ->
  localStorage (AuthService.logout s) = localStorage s.
Proof.
  intros Ht Hr Hu. unfold AuthService.logout, LocalStorage.removeItem. simpl.
  by rewrite (delete_id _ _ Ht), (delete_id _ _ Hr), (delete_id _ _ Hu).
Qed.

(** C9: [logout()] is idempotent.  A second call leaves storage, login flag,
    role, current user (and the router location) exactly as the first call
    left them, for [AuthService.logout] and for [ApiService.logout]; and on
    a state that is already logged out, [AuthService.logout] changes neither
    the storage nor the observable state. *)
Theorem logout_idempotent (s : App) :
  AuthService.logout (AuthService.logout s) = AuthService.logout s /\
  ApiService.logout (ApiService.logout s) = ApiService.logout s /\
  (logged_out s ->
   localStorage (AuthService.logout s) = localStorage s /\
   isLoggedIn (AuthService.logout s) = isLoggedIn s /\
   userRole (AuthService.logout s) = userRole s /\
   currentUser (AuthService.logout s) = currentUser s).
Proof.
  split_and!.
  - transitivity
      (mkApp (localStorage (AuthService.logout (AuthService.logout s)))
             false "" None "/login"); [done|].
    rewrite AuthService_logout_absent; [done|..];
      by rewrite AuthService_logout_storage.
  - unfold ApiService.logout, set_localStorage. simpl. f_equal.
    apply map_eq. intros k. unfold LocalStorage.removeItem.
    rewrite !lookup_delete. by repeat case_decide.
  - unfold logged_out, LocalStorage.getItem.
    intros (Ht & Hr & Hu & Hl & Hro & Hc). simpl.
    rewrite Hl, Hro, Hc. split_and!; try done.
    by apply AuthService_logout_absent.
Qed.

Lemma logout_idempotent_witness :
  let s := mkApp ∅ false "" None "/dashboard" in
  localStorage (AuthService.logout s) = localStorage s /\
  isLoggedIn (AuthService.logout s) = isLoggedIn s /\
  userRole (AuthService.logout s) = userRole s /\
  currentUser (AuthService.logout s) = currentUser s.
Proof.
  apply (proj2 (proj2 (logout_idempotent (mkApp ∅ false "" None "/dashboard")))).
  repeat split; reflexivity.
Defined.

(** ** The countdown scheduler of the alerts view *)

Lemma tick_countdown (v : AlertsComponent.View) :
  AlertsComponent.refreshCountdown (AlertsComponent.tick v) =
  if (AlertsComponent.refreshCountdown v - 1 <=? 0)%Z then 30
  else AlertsComponent.refreshCountdown v - 1.
Proof.
  unfold AlertsComponent.tick, AlertsComponent.refresh_if_due, AlertsComponent.decrement.
  simpl. by destruct (Z.leb_spec (AlertsComponent.refreshCountdown v - 1) 0).
Qed.

Lemma tick_requested (v : AlertsComponent.View) :
  AlertsComponent.requested (AlertsComponent.tick v) =
  if (AlertsComponent.refreshCountdown v - 1 <=? 0)%Z
  then S (AlertsComponent.requested v)
  else AlertsComponent.requested v.
Proof.
  unfold AlertsComponent.tick, AlertsComponent.refresh_if_due, AlertsComponent.decrement.
  simpl. by destruct (Z.leb_spec (AlertsComponent.refreshCountdown v - 1) 0).
Qed.

Lemma step_in_range (s s' : AlertsComponent.Sched) :
  AlertsComponent.step s s' -> in_range s -> in_range s'.
Proof.
  intros Hstep. destruct Hstep as [v|v]; simpl.
  - lia.
  - unfold AlertsComponent.refresh_if_due.
    destruct (Z.leb_spec (AlertsComponent.refreshCountdown v) 0); simpl; lia.
Qed.

Lemma reachable_in_range (s : AlertsComponent.Sched) :
  AlertsComponent.reachable s -> in_range s.
Proof.
  induction 1 as [|s s' _ IH Hstep].
  - simpl. lia.
  - by apply (step_in_range s).
Qed.

Lemma reachable_tick (v : AlertsComponent.View) :
  AlertsComponent.reachable (AlertsComponent.Waiting v) ->
  AlertsComponent.reachable (AlertsComponent.Waiting (AlertsComponent.tick v)).
Proof.
  intros Hv. unfold AlertsComponent.tick.
  eapply AlertsComponent.reachable_step; [|apply AlertsComponent.step_check].
  eapply AlertsComponent.reachable_step; [exact Hv|apply AlertsComponent.step_decrement].
Qed.

(** Before the countdown is due, each tick only lowers it by one. *)
Lemma ticks_before_due (k : nat) (v : AlertsComponent.View) :
  Z.of_nat k < AlertsComponent.refreshCountdown v ->
  AlertsComponent.refreshCountdown (Nat.iter k AlertsComponent.tick v)
  = AlertsComponent.refreshCountdown v - Z.of_nat k /\
  AlertsComponent.requested (Nat.iter k AlertsComponent.tick v)
  = AlertsComponent.requested v.
Proof.
  induction k as [|k IH]; intros Hk.
  - simpl. split; [lia|done].
  - destruct IH as [IHc IHr]; [lia|].
    rewrite Nat.iter_succ. rewrite tick_countdown, tick_requested, IHc, IHr.
    destruct (Z.leb_spec (AlertsComponent.refreshCountdown v - Z.of_nat k - 1) 0);
      [lia|]. split; [lia|done].
Qed.

(** The tick at which the countdown is due fires once and resets it. *)
Lemma ticks_until_due (v : AlertsComponent.View) :
  1 <= AlertsComponent.refreshCountdown v ->
  AlertsComponent.refreshCountdown
    (Nat.iter (Z.to_nat (AlertsComponent.refreshCountdown v)) AlertsComponent.tick v) = 30 /\
  AlertsComponent.requested
    (Nat.iter (Z.to_nat (AlertsComponent.refreshCountdown v)) AlertsComponent.tick v)
  = S (AlertsComponent.requested v).
Proof.
  intros Hc.
  destruct (Z.to_nat (AlertsComponent.refreshCountdown v)) as [|k] eqn:Hk; [lia|].
  destruct (ticks_before_due k v) as [IHc IHr]; [lia|].
  rewrite Nat.iter_succ. rewrite tick_countdown, tick_requested, IHc, IHr.
  destruct (Z.leb_spec (AlertsComponent.refreshCountdown v - Z.of_nat k - 1) 0);
    [done|lia].
Qed.

(** Any thirty consecutive ticks fire once and bring the countdown back. *)
Lemma thirty_ticks (v : AlertsComponent.View) :
  1 <= AlertsComponent.refreshCountdown v <= 30 ->
  AlertsComponent.refreshCountdown (Nat.iter 30 AlertsComponent.tick v)
  = AlertsComponent.refreshCountdown v /\
  AlertsComponent.requested (Nat.iter 30 AlertsComponent.tick v)
  = S (AlertsComponent.requested v).
Proof.
  intros Hc.
  set (c := Z.to_nat (AlertsComponent.refreshCountdown v)).
  replace 30%nat with ((30 - c) + c)%nat by lia.
  rewrite Nat.iter_add.
  destruct (ticks_until_due v) as [Hdc Hdr]; [lia|]. fold c in Hdc, Hdr.
  destruct (ticks_before_due (30 - c) (Nat.iter c AlertsComponent.tick v)) as [Hbc Hbr];
    [lia|].
  rewrite Hbc, Hbr, Hdc, Hdr. split; [lia|done].
Qed.

Lemma ticks_from_start (q r : nat) (v : AlertsComponent.View) :
  AlertsComponent.refreshCountdown v = 30 -> (r < 30)%nat ->
  AlertsComponent.refreshCountdown (Nat.iter (30 * q + r) AlertsComponent.tick v)
  = 30 - Z.of_nat r /\
  AlertsComponent.requested (Nat.iter (30 * q + r) AlertsComponent.tick v)
  = (AlertsComponent.requested v + q)%nat.
Proof.
  intros Hv Hr. induction q as [|q [IHc IHr]].
  - destruct (ticks_before_due r v) as [Hc Hq]; [lia|].
    replace (30 * 0 + r)%nat with r by lia. rewrite Hc, Hq. split; lia.
  - replace (30 * S q + r)%nat with (30 + (30 * q + r))%nat by lia.
    rewrite Nat.iter_add.
    destruct (thirty_ticks (Nat.iter (30 * q + r) AlertsComponent.tick v)) as [Hc Hq];
      [lia|].
    rewrite Hc, Hq, IHc, IHr. split; lia.
Qed.

(** C8: the countdown scheduler of the alerts view (one tick per second,
    reset value 30), started at 30.  In every reachable state of the tick
    step relation the countdown lies between 0 and 30, so it is never
    negative.  After [30 * q + r] ticks ([r < 30]) the countdown shows
    [30 - r] and the refresh has fired [q] times.  The value 0 is reached
    inside the thirtieth callback, which then fires the refresh once and
    resets the countdown to 30.  Any thirty consecutive ticks fire the
    refresh exactly once and return the countdown to its value. *)
Theorem countdown_scheduler :
  let start := AlertsComponent.loadAnomalies AlertsComponent.initial in
  (forall s, AlertsComponent.reachable s ->
     0 <= AlertsComponent.refreshCountdown (AlertsComponent.view_of s) <= 30) /\
  (forall q r, (r < 30)%nat ->
     AlertsComponent.reachable
       (AlertsComponent.Waiting (Nat.iter (30 * q + r) AlertsComponent.tick start)) /\
     AlertsComponent.refreshCountdown (Nat.iter (30 * q + r) AlertsComponent.tick start)
     = 30 - Z.of_nat r /\
     AlertsComponent.requested (Nat.iter (30 * q + r) AlertsComponent.tick start)
     = (AlertsComponent.requested start + q)%nat) /\
  (forall v, AlertsComponent.reachable (AlertsComponent.Waiting v) ->
     AlertsComponent.refreshCountdown v = 1 ->
     AlertsComponent.reachable (AlertsComponent.Decremented (AlertsComponent.decrement v)) /\
     AlertsComponent.refreshCountdown (AlertsComponent.decrement v) = 0 /\
     AlertsComponent.refreshCountdown (AlertsComponent.tick v) = 30 /\
     AlertsComponent.requested (AlertsComponent.tick v)
     = S (AlertsComponent.requested v)) /\
  (forall v, AlertsComponent.reachable (AlertsComponent.Waiting v) ->
     AlertsComponent.requested (Nat.iter 30 AlertsComponent.tick v)
     = S (AlertsComponent.requested v) /\
     AlertsComponent.refreshCountdown (Nat.iter 30 AlertsComponent.tick v)
     = AlertsComponent.refreshCountdown v).
Proof.
  intros start. split_and!.
  - intros s Hs. apply reachable_in_range in Hs. destruct s; simpl in *; lia.
  - intros q r Hr. split; [|by apply ticks_from_start].
    induction (30 * q + r)%nat as [|n IH]; [apply AlertsComponent.reachable_init|].
    rewrite Nat.iter_succ. by apply reachable_tick.
  - intros v Hv Hone. split_and!.
    + eapply AlertsComponent.reachable_step; [exact Hv|apply AlertsComponent.step_decrement].
    + simpl. lia.
    + rewrite tick_countdown, Hone. reflexivity.
    + rewrite tick_requested, Hone. reflexivity.
  - intros v Hv. apply reachable_in_range in Hv. simpl in Hv.
    destruct (thirty_ticks v) as [Hc Hq]; done.
Qed.

Lemma countdown_scheduler_witness :
  AlertsComponent.requested
    (Nat.iter 30 AlertsComponent.tick (AlertsComponent.loadAnomalies AlertsComponent.initial))
  = 2%nat /\
  AlertsComponent.refreshCountdown
    (Nat.iter 30 AlertsComponent.tick (AlertsComponent.loadAnomalies AlertsComponent.initial))
  = 30.
Proof.
  apply (proj2 (proj2 (proj2 countdown_scheduler))
           (AlertsComponent.loadAnomalies AlertsComponent.initial)).
  apply AlertsComponent.reachable_init.
Defined.

(** ** The recommendation normalizer *)

(** C4: [formatRecommendation] picks the action by the first match among
    [recommended_action], [recommendation], [action] and the fixed default
    text (a member counts as set when it holds a non-empty string), and when
    the payload has no [confidence] member the branch that matched supplies
    0.8, 0.7, 0.75 and 0.75 respectively.  With both [recommended_action] and
    [recommendation] set the action is the value of [recommended_action];
    the payload [{recommendation: "x"}] yields confidence 0.7. *)
Theorem formatRecommendation_precedence (now : string) (p : Payload.t) :
  let r := AlertsComponent.formatRecommendation now (Some p) in
  (forall a, Payload.recommended_action p = Some a -> a <> "" ->
     Rec.recommended_action r = a /\
     (Payload.confidence p = None -> Rec.confidence r = 0.8%float)) /\
  (forall x, Js.truthy_field (Payload.recommended_action p) = false ->
     Payload.recommendation p = Some x -> x <> "" ->
     Rec.recommended_action r = x /\
     (Payload.confidence p = None -> Rec.confidence r = 0.7%float)) /\
  (forall x, Js.truthy_field (Payload.recommended_action p) = false ->
     Js.truthy_field (Payload.recommendation p) = false ->
     Payload.action p = Some x -> x <> "" ->
     Rec.recommended_action r = x /\
     (Payload.confidence p = None -> Rec.confidence r = 0.75%float)) /\
  (Js.truthy_field (Payload.recommended_action p) = false ->
   Js.truthy_field (Payload.recommendation p) = false ->
   Js.truthy_field (Payload.action p) = false ->
   Rec.recommended_action r = "Monitor anomaly and adjust farming practices" /\
   Rec.confidence r = 0.75%float) /\
  (forall a x, Payload.recommended_action p = Some a -> a <> "" ->
     Payload.recommendation p = Some x -> x <> "" ->
     Rec.recommended_action r = a) /\
  Rec.confidence
    (AlertsComponent.formatRecommendation now
       (Some (Payload.mk None (Some "x") None None None None))) = 0.7%float.
Proof.
  intros r. subst r. unfold AlertsComponent.formatRecommendation. split_and!.
  - intros a Ha Hne. rewrite Ha, (truthy_field_Some a Hne). simpl.
    split; [by apply or_string_Some|]. by intros ->.
  - intros x -> Hx Hne. rewrite Hx, (truthy_field_Some x Hne). simpl.
    split; [by apply or_string_Some|]. by intros ->.
  - intros x -> -> Hx Hne. rewrite Hx, (truthy_field_Some x Hne). simpl.
    split; [by apply or_string_Some|]. by intros ->.
  - by intros -> -> ->.
  - intros a x Ha Hne _ _. rewrite Ha, (truthy_field_Some a Hne). simpl.
    by apply or_string_Some.
  - reflexivity.
Qed.

Lemma formatRecommendation_precedence_witness :
  Rec.recommended_action
    (AlertsComponent.formatRecommendation "2025-01-01T00:00:00.000Z"
       (Some (Payload.mk (Some "Irrigate now") (Some "Wait") None None None None)))
  = "Irrigate now".
Proof.
  apply (proj1 (proj2 (proj2 (proj2 (proj2
           (formatRecommendation_precedence "2025-01-01T00:00:00.000Z"
              (Payload.mk (Some "Irrigate now") (Some "Wait") None None None None))))))
           "Irrigate now" "Wait");
    [reflexivity | discriminate | reflexivity | discriminate].
Defined.

(** C5 (as stated) fails: a payload with [recommended_action] and
    [explanation] but no [explanation_text] does not get its [explanation];
    a payload with [recommendation] and [explanation_text] does not get its
    [explanation_text]. *)
Lemma formatRecommendation_explanation_counterexample :
  let p := Payload.mk (Some "Irrigate now") None None None (Some "Soil is dry") None in
  let q := Payload.mk None (Some "Irrigate now") None (Some "Soil is dry") None None in
  (Payload.explanation_text p = None /\
   Payload.explanation p = Some "Soil is dry" /\
   Rec.explanation_text (AlertsComponent.formatRecommendation "now" (Some p))
   = "AI-generated recommendation" /\
   Rec.explanation_text (AlertsComponent.formatRecommendation "now" (Some p))
   <> "Soil is dry" /\
   Rec.explanation_text (PlotDetailsComponent.normalize (Some p))
   = "AI-generated recommendation") /\
  (Payload.explanation_text q = Some "Soil is dry" /\
   Rec.explanation_text (AlertsComponent.formatRecommendation "now" (Some q))
   = "Generated by AI agent" /\
   Rec.explanation_text (PlotDetailsComponent.normalize (Some q))
   = "Generated by AI agent").
Proof. repeat split; discriminate. Qed.

(** C5 (amended): the member consulted for the explanation depends on the
    action branch that matched.  In [formatRecommendation]: in the
    [recommended_action] branch it is [explanation_text], else the text
    "AI-generated recommendation"; in the [recommendation] branch it is
    [explanation], else "Generated by AI agent"; in the [action] branch it is
    [explanation], else "AI analysis completed"; with no action member the
    fixed text "Temperature/moisture imbalance detected".  In the plot-details
    view: [explanation_text], else "AI-generated recommendation", in the
    [recommended_action] branch, and fixed texts in the other two. *)
Theorem formatRecommendation_explanation (now : string) (p : Payload.t) :
  let r := AlertsComponent.formatRecommendation now (Some p) in
  let d := PlotDetailsComponent.normalize (Some p) in
  (Js.truthy_field (Payload.recommended_action p) = true ->
   Rec.explanation_text r
   = Js.or_string (Payload.explanation_text p) "AI-generated recommendation" /\
   Rec.explanation_text d
   = Js.or_string (Payload.explanation_text p) "AI-generated recommendation") /\
  (Js.truthy_field (Payload.recommended_action p) = false ->
   Js.truthy_field (Payload.recommendation p) = true ->
   Rec.explanation_text r
   = Js.or_string (Payload.explanation p) "Generated by AI agent" /\
   Rec.explanation_text d = "Generated by AI agent") /\
  (Js.truthy_field (Payload.recommended_action p) = false ->
   Js.truthy_field (Payload.recommendation p) = false ->
   (Js.truthy_field (Payload.action p) = true ->
    Rec.explanation_text r
    = Js.or_string (Payload.explanation p) "AI analysis completed") /\
   (Js.truthy_field (Payload.action p) = false ->
    Rec.explanation_text r = "Temperature/moisture imbalance detected") /\
   Rec.explanation_text d = "Temperature/moisture imbalance detected").
Proof.
  intros r d. subst r d.
  unfold AlertsComponent.formatRecommendation, PlotDetailsComponent.normalize.
  split_and!.
  - by intros ->.
  - by intros -> ->.
  - intros -> ->. split_and!; [by intros ->|by intros ->|done].
Qed.

Lemma formatRecommendation_explanation_witness :
  Rec.explanation_text
    (AlertsComponent.formatRecommendation "now"
       (Some (Payload.mk None (Some "Irrigate now") None None (Some "Soil is dry") None)))
  = "Soil is dry" /\
  Rec.explanation_text
    (PlotDetailsComponent.normalize
       (Some (Payload.mk None (Some "Irrigate now") None None (Some "Soil is dry") None)))
  = "Generated by AI agent".
Proof.
  apply (proj1 (proj2
           (formatRecommendation_explanation "now"
              (Payload.mk None (Some "Irrigate now") None None (Some "Soil is dry") None))));
    reflexivity.
Defined.

(** ** Failure paths of the recommendation-generating call *)





(** ** The session store *)

(** Role derivation: [admin] for staff or superusers, [farmer] otherwise. *)
Lemma derive_role_spec (u : User) :
  AuthService.derive_role u
  = if bool_decide (is_staff u = true \/ is_superuser u = true) then "admin" else "farmer".
Proof. unfold AuthService.derive_role. by destruct (is_staff u), (is_superuser u). Qed.

(** What [login] does when the token exchange succeeds and the profile
    fetch fails: both tokens are written, nothing else changes, and the
    failure reaches the subscriber. *)
Lemma login_profile_failure `{Json} (be : Backend) (u p : string) (s : App)
    (tok : LoginResponse) (e : Failure) :
  post_login be u p = Next tok ->
  get_user be ("Bearer " +:+ access tok) = Error e ->
  AuthService.login be u p s
  = (set_localStorage
       (<[AuthService.refreshKey := refresh tok]>
          (<[AuthService.tokenKey := access tok]> (localStorage s))) s,
     Error e).
Proof. intros Htok Hprofile. unfold AuthService.login. by rewrite Htok, Hprofile. Qed.

Lemma session_invariant_startup `{Json} (persisted : gmap string string) (loc : string) :
  session_invariant (AuthService.startup persisted loc).
Proof.
  unfold AuthService.startup, AuthService.checkTokenValidity, AuthService.isTokenValid,
    AuthService.getToken, session_invariant, LocalStorage.getItem. simpl.
  destruct (persisted !! AuthService.tokenKey) as [t|] eqn:Ht; [|done].
  destruct (Js.truthy t) eqn:Htruthy; [|done].
  destruct (AuthService.getCurrentUser _); [|done]. simpl.
  intros _. exists t. split; [done|]. by apply truthy_true.
Qed.

(** The operations that go through [AuthService] keep the invariant. *)
Lemma session_invariant_run `{Json} (be : Backend) (o : Op) (s : App) :
  issues_tokens be -> through_AuthService o = true ->
  session_invariant s -> session_invariant (run be o s).
Proof.
  intros [Hlogin Hrefresh] Ho Hinv.
  destruct o as [u p| | | | | | |err]; try done; simpl.
  - unfold AuthService.login.
    destruct (post_login be u p) as [tok|e] eqn:Htok; [|done].
    assert (access tok <> "") as Hne by eauto.
    destruct (get_user be _) as [userInfo|e]; simpl; intros _; exists (access tok);
      (split; [|done]); unfold LocalStorage.getItem, LocalStorage.setItem; simpl;
      rewrite ?lookup_insert_ne by done; apply lookup_insert_eq.
  - unfold AuthService.refreshToken, LocalStorage.getItem.
    destruct (localStorage s !! AuthService.refreshKey) as [r|]; [|done].
    destruct (Js.truthy r); [|done].
    destruct (post_refresh be r) as [a|e] eqn:Ha; [|done]. simpl.
    intros _. exists a. split; [|by eauto].
    unfold LocalStorage.getItem, LocalStorage.setItem. simpl. apply lookup_insert_eq.
Qed.

(** C1: a login whose token exchange succeeds and whose profile fetch fails
    should end logged out with no token persisted.  Evaluated from an empty
    storage against a backend that issues the tokens "acc-1"/"ref-1" and then
    answers the profile request with status 500: the failure reaches the
    subscriber and the login flag stays false, but both tokens stay in
    storage, so the token checks of [AuthService] and [ApiService] succeed.
    The failure path of [refreshToken], applied next, does clear them. *)
Theorem login_profile_failure_keeps_tokens `{Json} :
  let s0 := AuthService.startup ∅ "/login" in
  let attempt := AuthService.login backend_profile_down "joe" "secret" s0 in
  logged_out s0 /\
  snd attempt = Error (HttpErrorResponse 500) /\
  isLoggedIn (fst attempt) = false /\
  LocalStorage.getItem AuthService.tokenKey (localStorage (fst attempt)) = Some "acc-1" /\
  LocalStorage.getItem AuthService.refreshKey (localStorage (fst attempt)) = Some "ref-1" /\
  AuthService.isTokenValid (fst attempt) = true /\
  ApiService.isAuthenticated (fst attempt) = true /\
  logged_out (fst (AuthService.refreshToken backend_profile_down (fst attempt))).
Proof. repeat split. Qed.

(** C2: a 401 on an authenticated call should clear the access and refresh
    tokens and turn the login flag off.  Evaluated on the session a
    successful login leaves: the [error] callback of the dashboard's load,
    given status 401, removes the access token only; the refresh token and
    the user data stay in storage and the login flag stays true.  The logout
    of the alerts view, on the same session, clears everything. *)
Theorem dashboard_unauthorized_keeps_session `{Json} :
  let s1 :=
    fst (AuthService.login backend_up "joe" "secret" (AuthService.startup ∅ "/login")) in
  let s2 := DashboardComponent.loadDashboardData_error (HttpErrorResponse 401) s1 in
  isLoggedIn s1 = true /\
  LocalStorage.getItem AuthService.tokenKey (localStorage s2) = None /\
  LocalStorage.getItem AuthService.refreshKey (localStorage s2) = Some "ref-1" /\
  LocalStorage.getItem AuthService.userKey (localStorage s2)
  = Some (JSON_stringify (with_role farmer_joe "farmer")) /\
  isLoggedIn s2 = true /\
  currentUser s2 = Some (with_role farmer_joe "farmer") /\
  logged_out (AlertsComponent.logout s1).
Proof. repeat split. Qed.

(** C3: a true login flag should always come with a non-empty access token
    in storage.  The state reached by a successful login followed by the
    dashboard's logout handler has the flag true and no access token: the
    invariant holds before the handler and fails after it. *)
Theorem dashboard_logout_breaks_invariant `{Json} :
  let s1 :=
    fst (AuthService.login backend_up "joe" "secret" (AuthService.startup ∅ "/login")) in
  let s2 := DashboardComponent.logout s1 in
  reachable backend_up s2 /\
  session_invariant s1 /\
  isLoggedIn s2 = true /\
  LocalStorage.getItem AuthService.tokenKey (localStorage s2) = None /\
  ~ session_invariant s2.
Proof.
  intros s1 s2. split_and!.
  - apply (reachable_run backend_up OpDashboardLogout).
    apply (reachable_run backend_up (OpLogin "joe" "secret")).
    apply reachable_startup.
  - intros _. by exists "acc-1".
  - done.
  - done.
  - intros Hinv. destruct Hinv as (t & Ht & _); [done|]. discriminate Ht.
Qed.

(* ===================================================================== *)
(** * Further properties *)
(* ===================================================================== *)

(** ** Session store: start-up, login, logout, refresh *)

Lemma startup_storage `{Json} (persisted : gmap string string) (loc : string) :
  localStorage (AuthService.startup persisted loc) = persisted /\
  location (AuthService.startup persisted loc) = loc.
Proof.
  unfold AuthService.startup, AuthService.checkTokenValidity.
  destruct (AuthService.isTokenValid _); [|done].
  by destruct (AuthService.getCurrentUser _).
Qed.

Lemma startup_restorable `{Json} (persisted : gmap string string) (loc : string) :
  AuthService.startup persisted loc =
  match restorable_user persisted with
  | Some u => mkApp persisted true (role u) (Some u) loc
  | None => mkApp persisted false "" None loc
  end.
Proof.
  unfold AuthService.startup, AuthService.checkTokenValidity, AuthService.isTokenValid,
    AuthService.getToken, AuthService.getCurrentUser, LocalStorage.getItem,
    AuthService.tokenKey, AuthService.userKey, restorable_user.
  simpl.
  destruct (persisted !! "access_token") as [t|]; [|done].
  destruct (Js.truthy t); [|done].
  destruct (persisted !! "user_data") as [d|]; [|done].
  destruct (Js.truthy d); [|done].
  by destruct (JSON_parse d).
Qed.

Lemma restorable_user_Some `{Json} (persisted : gmap string string) (u : User) :
  restorable_user persisted = Some u <->
  exists t d,
    persisted !! "access_token" = Some t /\ t <> "" /\
    persisted !! "user_data" = Some d /\ d <> "" /\ JSON_parse d = Some u.
Proof.
  unfold restorable_user. split.
  - destruct (persisted !! "access_token") as [t|]; [|done].
    destruct (Js.truthy t) eqn:Ht; [|done].
    destruct (persisted !! "user_data") as [d|]; [|done].
    destruct (Js.truthy d) eqn:Hd; [|done].
    intros Hparse. exists t, d. split_and!; try done; by apply truthy_true.
  - intros (t & d & -> & Ht & -> & Hd & Hparse).
    apply truthy_true in Ht, Hd. by rewrite Ht, Hd.
Qed.

(** When the constructor returns, it returns the state of [AuthService.startup]. *)
Lemma constructor_returns `{JsonStrict} (persisted : gmap string string) (loc : string)
    (s : App) :
  AuthServiceRest.constructor persisted loc = Returns s ->
  s = AuthService.startup persisted loc.
Proof.
  unfold AuthServiceRest.constructor, AuthServiceRest.checkTokenValidity,
    AuthServiceRest.getCurrentUser, AuthService.startup,
    AuthService.checkTokenValidity, AuthService.getCurrentUser.
  destruct (AuthService.isTokenValid _); [|by intros [= <-]].
  cbn [localStorage].
  destruct (LocalStorage.getItem AuthService.userKey persisted) as [d|];
    [|by intros [= <-]].
  destruct (Js.truthy d); [|by intros [= <-]].
  destruct (JSON_parse_throws d); [done|].
  destruct (JSON_parse d); by intros [= <-].
Qed.

Lemma constructor_throws `{JsonStrict} (persisted : gmap string string) (loc : string) :
  AuthServiceRest.constructor persisted loc = Throws <->
  exists t d,
    persisted !! "access_token" = Some t /\ t <> "" /\
    persisted !! "user_data" = Some d /\ d <> "" /\ JSON_parse_throws d = true.
Proof.
  unfold AuthServiceRest.constructor, AuthServiceRest.checkTokenValidity,
    AuthServiceRest.getCurrentUser, AuthService.isTokenValid, AuthService.getToken,
    LocalStorage.getItem, AuthService.tokenKey, AuthService.userKey.
  cbn [localStorage]. split.
  - destruct (persisted !! "access_token") as [t|]; [|done].
    destruct (Js.truthy t) eqn:Ht; [|done].
    destruct (persisted !! "user_data") as [d|]; [|done].
    destruct (Js.truthy d) eqn:Hd; [|done].
    destruct (JSON_parse_throws d) eqn:Hthrows; [|by destruct (JSON_parse d)].
    intros _. exists t, d. split_and!; try done; by apply truthy_true.
  - intros (t & d & -> & Ht & -> & Hd & ->).
    apply truthy_true in Ht, Hd. by rewrite Ht, Hd.
Qed.

(** X1: the constructor of [AuthService].  It throws, so that no service
    comes into being, exactly when storage holds a non-empty access token
    together with non-empty user data on which [JSON.parse] throws.  When it
    returns, storage is as it was, and the session is logged in exactly when
    storage holds a non-empty access token together with non-empty user data
    that parses to a user, whose role and identity are then published;
    otherwise the session starts anonymous. *)
Theorem constructor_rehydrates `{JsonStrict} (persisted : gmap string string)
    (loc : string) :
  (AuthServiceRest.constructor persisted loc = Throws <->
   exists t d,
     persisted !! "access_token" = Some t /\ t <> "" /\
     persisted !! "user_data" = Some d /\ d <> "" /\ JSON_parse_throws d = true) /\
  (forall s, AuthServiceRest.constructor persisted loc = Returns s ->
     localStorage s = persisted /\ location s = loc /\
     (isLoggedIn s = true <->
      exists t d u,
        persisted !! "access_token" = Some t /\ t <> "" /\
        persisted !! "user_data" = Some d /\ d <> "" /\ JSON_parse d = Some u) /\
     (forall t d u,
        persisted !! "access_token" = Some t -> t <> "" ->
        persisted !! "user_data" = Some d -> d <> "" -> JSON_parse d = Some u ->
        isLoggedIn s = true /\ userRole s = role u /\ currentUser s = Some u) /\
     (isLoggedIn s = false -> userRole s = "" /\ currentUser s = None)).
Proof.
  split; [apply constructor_throws|].
  intros s Hs. apply constructor_returns in Hs as ->.
  rewrite startup_restorable.
  destruct (restorable_user persisted) as [u|] eqn:Hu; simpl.
  - apply restorable_user_Some in Hu as (t & d & Ht & Hne & Hd & Hdne & Hparse).
    split_and!; [done|done| | |done].
    + split; [|done]. intros _. by exists t, d, u.
    + intros t' d' u' Ht' _ Hd' _ Hparse'.
      rewrite Ht in Ht'. injection Ht' as <-.
      rewrite Hd in Hd'. injection Hd' as <-.
      rewrite Hparse in Hparse'. by injection Hparse' as <-.
  - split_and!; [done|done| | |done].
    + split; [done|]. intros (t & d & u & Ht & Hne & Hd & Hdne & Hparse).
      assert (restorable_user persisted = Some u) as Hsome
        by (apply restorable_user_Some; by exists t, d).
      congruence.
    + intros t d u Ht Hne Hd Hdne Hparse.
      assert (restorable_user persisted = Some u) as Hsome
        by (apply restorable_user_Some; by exists t, d).
      congruence.
Qed.

Lemma constructor_rehydrates_witness :
  @AuthServiceRest.constructor sample_json sample_json_strict
    {[ "access_token" := "acc-1"; "user_data" := "{joe" ]} "/login" = Throws /\
  exists s,
    @AuthServiceRest.constructor sample_json sample_json_strict
      {[ "access_token" := "acc-1"; "user_data" := "{joe:farmer}" ]} "/login"
    = Returns s /\
    isLoggedIn s = true /\ userRole s = "farmer" /\
    currentUser s = Some (with_role farmer_joe "farmer").
Proof.
  split.
  - apply (proj1 (@constructor_rehydrates sample_json sample_json_strict
                    {[ "access_token" := "acc-1"; "user_data" := "{joe" ]} "/login")).
    exists "acc-1", "{joe". repeat split; discriminate.
  - exists (mkApp {[ "access_token" := "acc-1"; "user_data" := "{joe:farmer}" ]}
                  true "farmer" (Some (with_role farmer_joe "farmer")) "/login").
    assert (@AuthServiceRest.constructor sample_json sample_json_strict
              {[ "access_token" := "acc-1"; "user_data" := "{joe:farmer}" ]} "/login"
            = Returns (mkApp {[ "access_token" := "acc-1"; "user_data" := "{joe:farmer}" ]}
                             true "farmer" (Some (with_role farmer_joe "farmer")) "/login"))
      as Hreturns by reflexivity.
    split; [exact Hreturns|].
    destruct (@constructor_rehydrates sample_json sample_json_strict
                {[ "access_token" := "acc-1"; "user_data" := "{joe:farmer}" ]} "/login")
      as [_ Hstate].
    destruct (Hstate _ Hreturns) as (_ & _ & _ & Hin & _).
    apply (Hin "acc-1" "{joe:farmer}" (with_role farmer_joe "farmer"));
      first [reflexivity | discriminate].
Defined.

Lemma login_success_state `{Json} (be : Backend) (u p : string) (s : App)
    (tok : LoginResponse) (userInfo : User) :
  post_login be u p = Next tok ->
  get_user be ("Bearer " +:+ access tok) = Next userInfo ->
  AuthService.login be u p s
  = (mkApp (<["user_data" :=
               JSON_stringify (with_role userInfo (AuthService.derive_role userInfo))]>
              (<["refresh_token" := refresh tok]>
                 (<["access_token" := access tok]> (localStorage s))))
           true (AuthService.derive_role userInfo)
           (Some (with_role userInfo (AuthService.derive_role userInfo)))
           "/dashboard",
     Next userInfo).
Proof. intros Htok Hprofile. unfold AuthService.login. by rewrite Htok, Hprofile. Qed.

(** X2: what a successful login leaves.  The subscriber receives the profile,
    the login flag is true, the router is at the dashboard, both tokens and
    the serialized user are in storage and every other key is untouched.  The
    role published and stored is derived from the flags of the profile, not
    taken from its [role] member: "admin" exactly for staff or superusers,
    "farmer" otherwise. *)
Theorem login_success `{Json} (be : Backend) (u p : string) (s : App)
    (tok : LoginResponse) (userInfo : User) :
  post_login be u p = Next tok ->
  get_user be ("Bearer " +:+ access tok) = Next userInfo ->
  let s1 := fst (AuthService.login be u p s) in
  snd (AuthService.login be u p s) = Next userInfo /\
  isLoggedIn s1 = true /\ location s1 = "/dashboard" /\
  localStorage s1 !! "access_token" = Some (access tok) /\
  localStorage s1 !! "refresh_token" = Some (refresh tok) /\
  localStorage s1 !! "user_data"
  = Some (JSON_stringify (with_role userInfo (userRole s1))) /\
  currentUser s1 = Some (with_role userInfo (userRole s1)) /\
  (userRole s1 = "admin" <-> is_staff userInfo = true \/ is_superuser userInfo = true) /\
  (userRole s1 = "farmer" <-> is_staff userInfo = false /\ is_superuser userInfo = false) /\
  (forall k, k <> "access_token" -> k <> "refresh_token" -> k <> "user_data" ->
     localStorage s1 !! k = localStorage s !! k).
Proof.
  intros Htok Hprofile s1. subst s1.
  rewrite (login_success_state be u p s tok userInfo Htok Hprofile). simpl.
  unfold AuthService.derive_role.
  split_and!; try done.
  - rewrite !lookup_insert_ne by done. apply lookup_insert_eq.
  - rewrite lookup_insert_ne by done. apply lookup_insert_eq.
  - apply lookup_insert_eq.
  - destruct (is_staff userInfo), (is_superuser userInfo); simpl; intuition congruence.
  - destruct (is_staff userInfo), (is_superuser userInfo); simpl; intuition congruence.
  - intros k Ha Hr Hu. by rewrite !lookup_insert_ne by done.
Qed.

Lemma login_success_witness :
  userRole (fst (@AuthService.login sample_json backend_up "joe" "secret"
                   (@AuthService.startup sample_json ∅ "/login"))) = "farmer" <->
  is_staff farmer_joe = false /\ is_superuser farmer_joe = false.
Proof.
  apply (@login_success sample_json backend_up "joe" "secret"
           (@AuthService.startup sample_json ∅ "/login")
           (mkLoginResponse "acc-1" "ref-1") farmer_joe eq_refl eq_refl).
Defined.

(** X3: a restart after a successful login restores the same session.  When
    the access token is non-empty and the serialized user is non-empty and
    parses back to the user, starting up on the storage the login left gives
    the login flag, role and current user the login published, and leaves the
    storage as it is. *)
Theorem login_survives_restart `{Json} (be : Backend) (u p loc : string) (s : App)
    (tok : LoginResponse) (userInfo : User) :
  post_login be u p = Next tok -> access tok <> "" ->
  get_user be ("Bearer " +:+ access tok) = Next userInfo ->
  JSON_stringify (with_role userInfo (AuthService.derive_role userInfo)) <> "" ->
  JSON_parse (JSON_stringify (with_role userInfo (AuthService.derive_role userInfo)))
  = Some (with_role userInfo (AuthService.derive_role userInfo)) ->
  let s1 := fst (AuthService.login be u p s) in
  let s2 := AuthService.startup (localStorage s1) loc in
  isLoggedIn s2 = true /\ userRole s2 = userRole s1 /\
  currentUser s2 = currentUser s1 /\ localStorage s2 = localStorage s1.
Proof.
  intros Htok Hne Hprofile Hstr Hparse s1 s2. subst s2 s1.
  rewrite (login_success_state be u p s tok userInfo Htok Hprofile). simpl.
  rewrite startup_restorable.
  assert (restorable_user
            (<["user_data" :=
                JSON_stringify (with_role userInfo (AuthService.derive_role userInfo))]>
               (<["refresh_token" := refresh tok]>
                  (<["access_token" := access tok]> (localStorage s))))
          = Some (with_role userInfo (AuthService.derive_role userInfo))) as ->.
  { apply restorable_user_Some.
    exists (access tok),
      (JSON_stringify (with_role userInfo (AuthService.derive_role userInfo))).
    split_and!; try done.
    - rewrite !lookup_insert_ne by done. apply lookup_insert_eq.
    - apply lookup_insert_eq. }
  done.
Qed.

Lemma login_survives_restart_witness :
  let s1 :=
    fst (@AuthService.login sample_json backend_up "joe" "secret"
           (@AuthService.startup sample_json ∅ "/login")) in
  let s2 := @AuthService.startup sample_json (localStorage s1) "/alerts" in
  isLoggedIn s2 = true /\ userRole s2 = userRole s1 /\
  currentUser s2 = currentUser s1 /\ localStorage s2 = localStorage s1.
Proof.
  apply (@login_survives_restart sample_json backend_up "joe" "secret" "/alerts"
           (@AuthService.startup sample_json ∅ "/login")
           (mkLoginResponse "acc-1" "ref-1") farmer_joe);
    first [reflexivity | discriminate].
Defined.




Lemma logout_gone (s : App) (k : string) :
  k = "access_token" \/ k = "refresh_token" \/ k = "user_data" ->
  localStorage (AuthService.logout s) !! k = None.
Proof.
  intros Hk. rewrite AuthService_logout_storage.
  rewrite bool_decide_eq_true_2; [done|].
  unfold AuthService.tokenKey, AuthService.refreshKey, AuthService.userKey.
  rewrite !elem_of_cons. tauto.
Qed.

Lemma logout_logged_out (s : App) : logged_out (AuthService.logout s).
Proof.
  unfold logged_out, LocalStorage.getItem, AuthService.tokenKey,
    AuthService.refreshKey, AuthService.userKey.
  rewrite !logout_gone by tauto. done.
Qed.

(** X5: [AuthService.logout()] always ends in the logged-out state at the
    login route: the three session keys are gone, the subjects are reset, the
    token checks of both services fail, and every other key of storage is
    left as it was. *)
Theorem logout_clears_session (s : App) :
  logged_out (AuthService.logout s) /\
  location (AuthService.logout s) = "/login" /\
  AuthService.isTokenValid (AuthService.logout s) = false /\
  ApiService.isAuthenticated (AuthService.logout s) = false /\
  (forall k, k <> "access_token" -> k <> "refresh_token" -> k <> "user_data" ->
     localStorage (AuthService.logout s) !! k = localStorage s !! k).
Proof.
  split; [apply logout_logged_out|].
  unfold AuthService.isTokenValid, AuthService.getToken,
    ApiService.isAuthenticated, LocalStorage.getItem, AuthService.tokenKey.
  rewrite !logout_gone by tauto.
  split_and!; try done.
  intros k Ha Hr Hu. rewrite AuthService_logout_storage.
  rewrite bool_decide_eq_false_2; [done|].
  unfold AuthService.tokenKey, AuthService.refreshKey, AuthService.userKey.
  rewrite !elem_of_cons, elem_of_nil. tauto.
Qed.

(** X6: without a refresh token in storage (missing or empty),
    [refreshToken()] does not depend on the backend at all: it logs out and
    fails with "No refresh token". *)
Theorem refreshToken_without_token (be : Backend) (s : App) :
  Js.truthy_field (localStorage s !! "refresh_token") = false ->
  AuthService.refreshToken be s
  = (AuthService.logout s, Error (JsError "No refresh token")) /\
  logged_out (fst (AuthService.refreshToken be s)).
Proof.
  intros Hno.
  assert (AuthService.refreshToken be s
          = (AuthService.logout s, Error (JsError "No refresh token"))) as ->.
  { unfold AuthService.refreshToken, LocalStorage.getItem, AuthService.refreshKey.
    destruct (localStorage s !! "refresh_token") as [r|]; [|done].
    simpl in Hno. by rewrite Hno. }
  split; [done|]. apply logout_logged_out.
Qed.

Lemma refreshToken_without_token_witness :
  AuthService.refreshToken backend_up (mkApp {[ "access_token" := "acc-0" ]} true "farmer"
                                             (Some farmer_joe) "/alerts")
  = (AuthService.logout (mkApp {[ "access_token" := "acc-0" ]} true "farmer"
                               (Some farmer_joe) "/alerts"),
     Error (JsError "No refresh token")) /\
  logged_out
    (fst (AuthService.refreshToken backend_up
            (mkApp {[ "access_token" := "acc-0" ]} true "farmer"
                   (Some farmer_joe) "/alerts"))).
Proof.
  apply (refreshToken_without_token backend_up
           (mkApp {[ "access_token" := "acc-0" ]} true "farmer" (Some farmer_joe) "/alerts")).
  reflexivity.
Defined.

(** X7: with a refresh token [r] in storage, [refreshToken()] sends [r].  On
    success only the access token changes: it becomes the one received, and
    the refresh token, every other key, the login flag, role, user and route
    stay.  On failure the session is logged out and the failure is passed on. *)
Theorem refreshToken_outcomes (be : Backend) (s : App) (r : string) :
  localStorage s !! "refresh_token" = Some r -> r <> "" ->
  (forall a, post_refresh be r = Next a ->
     snd (AuthService.refreshToken be s) = Next a /\
     localStorage (fst (AuthService.refreshToken be s)) = <["access_token" := a]> (localStorage s) /\
     localStorage (fst (AuthService.refreshToken be s)) !! "refresh_token" = Some r /\
     isLoggedIn (fst (AuthService.refreshToken be s)) = isLoggedIn s /\
     userRole (fst (AuthService.refreshToken be s)) = userRole s /\
     currentUser (fst (AuthService.refreshToken be s)) = currentUser s /\
     location (fst (AuthService.refreshToken be s)) = location s) /\
  (forall e, post_refresh be r = Error e ->
     snd (AuthService.refreshToken be s) = Error e /\
     logged_out (fst (AuthService.refreshToken be s))).
Proof.
  intros Hr Hne. apply truthy_true in Hne.
  unfold AuthService.refreshToken, LocalStorage.getItem, AuthService.refreshKey.
  rewrite Hr, Hne. split.
  - intros a ->. simpl. unfold LocalStorage.setItem, AuthService.tokenKey.
    split_and!; try done. by rewrite lookup_insert_ne.
  - intros e ->. simpl. split; [done|]. apply logout_logged_out.
Qed.

Lemma refreshToken_outcomes_witness :
  let s := mkApp {[ "refresh_token" := "ref-1" ]} true "farmer" (Some farmer_joe) "/alerts" in
  snd (AuthService.refreshToken backend_up s) = Next "acc-2" /\
  localStorage (fst (AuthService.refreshToken backend_up s))
  = <["access_token" := "acc-2"]> (localStorage s) /\
  localStorage (fst (AuthService.refreshToken backend_up s)) !! "refresh_token"
  = Some "ref-1" /\
  isLoggedIn (fst (AuthService.refreshToken backend_up s)) = isLoggedIn s /\
  userRole (fst (AuthService.refreshToken backend_up s)) = userRole s /\
  currentUser (fst (AuthService.refreshToken backend_up s)) = currentUser s /\
  location (fst (AuthService.refreshToken backend_up s)) = location s.
Proof.
  intros s.
  destruct (refreshToken_outcomes backend_up s "ref-1") as [Hsuccess _];
    [reflexivity|discriminate|].
  apply Hsuccess. reflexivity.
Defined.

(** X8: [refreshUserProfile()] touches the user only.  On success the
    current user and the stored user data become the profile with its role
    derived from the flags; the login flag, the route, the tokens and every
    other key stay, and so does the published role [userRole$], which is not
    updated even when the derived role differs from it.  On failure nothing
    changes. *)
Theorem refreshUserProfile_frame `{Json} (res : Outcome User) (s : App) :
  let s' := fst (AuthServiceRest.refreshUserProfile res s) in
  isLoggedIn s' = isLoggedIn s /\ userRole s' = userRole s /\
  location s' = location s /\
  (forall k, k <> "user_data" -> localStorage s' !! k = localStorage s !! k) /\
  (forall userInfo, res = Next userInfo ->
     currentUser s' = Some (with_role userInfo (AuthService.derive_role userInfo)) /\
     localStorage s' !! "user_data"
     = Some (JSON_stringify (with_role userInfo (AuthService.derive_role userInfo))) /\
     (userRole s <> AuthService.derive_role userInfo ->
      role <$> currentUser s' <> Some (userRole s'))) /\
  (forall e, res = Error e -> AuthServiceRest.refreshUserProfile res s = (s, Error e)).
Proof.
  intros s'. subst s'. destruct res as [userInfo|e]; simpl.
  - unfold LocalStorage.setItem, AuthService.userKey. split_and!; try done.
    + intros k Hk. by rewrite lookup_insert_ne.
    + intros ? [= <-]. split_and!; [done|apply lookup_insert_eq|].
      simpl. congruence.
  - split_and!; try done. by intros ? [= <-].
Qed.

(** X9: the three header builders agree when a non-empty token is stored and
    differ when none is: [ApiService.getHeaders] sends an empty
    [Authorization] value, [AuthService.getAuthHeaders] sends the text
    "Bearer null", and [AuthService.getHeaders] sends no [Authorization]
    header at all. *)
Theorem header_builders (s : App) :
  (forall t, localStorage s !! "access_token" = Some t -> t <> "" ->
     AuthServiceRest.getHeaders s = ApiService.getHeaders (localStorage s) /\
     AuthServiceRest.getAuthHeaders s = ApiService.getHeaders (localStorage s) /\
     ApiService.getHeaders (localStorage s) !! "Authorization" = Some ("Bearer " +:+ t)) /\
  (localStorage s !! "access_token" = None ->
   ApiService.getHeaders (localStorage s) !! "Authorization" = Some "" /\
   AuthServiceRest.getAuthHeaders s !! "Authorization" = Some "Bearer null" /\
   AuthServiceRest.getHeaders s !! "Authorization" = None) /\
  ApiService.headers (AuthServiceRest.refreshUserProfile_request s)
  = AuthServiceRest.getAuthHeaders s.
Proof.
  unfold AuthServiceRest.getHeaders, AuthServiceRest.getAuthHeaders,
    ApiService.getHeaders, AuthService.getToken, LocalStorage.getItem,
    AuthService.tokenKey.
  split_and!; [| |done].
  - intros t -> Hne. apply truthy_true in Hne. rewrite Hne.
    split_and!; [done|done|apply lookup_insert_eq].
  - intros ->. split_and!; [apply lookup_insert_eq|apply lookup_insert_eq|].
    by rewrite lookup_insert_ne.
Qed.

Lemma header_builders_witness :
  let s := mkApp {[ "access_token" := "acc-1" ]} true "farmer" None "/alerts" in
  AuthServiceRest.getHeaders s = ApiService.getHeaders (localStorage s) /\
  AuthServiceRest.getAuthHeaders s = ApiService.getHeaders (localStorage s) /\
  ApiService.getHeaders (localStorage s) !! "Authorization" = Some "Bearer acc-1".
Proof.
  apply (proj1 (header_builders (mkApp {[ "access_token" := "acc-1" ]} true "farmer"
                                       None "/alerts")) "acc-1").
  - reflexivity.
  - discriminate.
Defined.

(** X10: after any of the five logout handlers the access token is gone:
    [ApiService.isAuthenticated()] is false and every authenticated request
    built afterwards carries an empty [Authorization] value.  Only the
    handlers that go through [AuthService.logout] also turn the login flag
    off; the other three leave the flag and the refresh token as they are. *)
Theorem logout_handlers (s : App) (c : ApiService.Call) :
  Forall (fun handler : App -> App =>
            ApiService.isAuthenticated (handler s) = false /\
            ApiService.headers (ApiService.request (localStorage (handler s)) c)
              !! "Authorization" = Some "")
         [AuthService.logout; AlertsComponent.logout; ApiService.logout;
          DashboardComponent.logout; PlotDetailsComponent.logout] /\
  Forall (fun handler : App -> App => isLoggedIn (handler s) = false)
         [AuthService.logout; AlertsComponent.logout] /\
  Forall (fun handler : App -> App =>
            isLoggedIn (handler s) = isLoggedIn s /\
            currentUser (handler s) = currentUser s /\
            localStorage (handler s) !! "refresh_token"
            = localStorage s !! "refresh_token")
         [ApiService.logout; DashboardComponent.logout; PlotDetailsComponent.logout].
Proof.
  assert (forall s' : App,
            localStorage s' !! "access_token" = None ->
            ApiService.isAuthenticated s' = false /\
            ApiService.headers (ApiService.request (localStorage s') c)
              !! "Authorization" = Some "") as Hgone.
  { intros s' Hnone. split.
    - unfold ApiService.isAuthenticated, LocalStorage.getItem. by rewrite Hnone.
    - by rewrite request_headers, getHeaders_Authorization, Hnone. }
  assert (localStorage (AuthService.logout s) !! "access_token" = None) as Hauth
    by (apply logout_gone; tauto).
  assert (localStorage (ApiService.logout s) !! "access_token" = None) as Hapi.
  { unfold ApiService.logout, LocalStorage.removeItem. simpl.
    by rewrite lookup_delete_ne, lookup_delete_eq. }
  assert (localStorage (DashboardComponent.logout s) !! "access_token" = None) as Hdash
    by apply lookup_delete_eq.
  assert (localStorage (PlotDetailsComponent.logout s) !! "access_token" = None) as Hplot
    by apply lookup_delete_eq.
  rewrite !Forall_cons, !Forall_nil.
  split_and!; try done; try (by apply Hgone).
  - unfold ApiService.logout, LocalStorage.removeItem. simpl.
    by rewrite !lookup_delete_ne.
  - unfold DashboardComponent.logout, LocalStorage.removeItem. simpl.
    by rewrite lookup_delete_ne.
  - unfold PlotDetailsComponent.logout, LocalStorage.removeItem. simpl.
    by rewrite lookup_delete_ne.
Qed.

(** X24: whichever logout handler ran last, the next start-up on the
    storage it left begins logged out and anonymous, also for the three
    handlers that leave the login flag, the refresh token or the user data
    behind. *)
Theorem restart_after_logout `{Json} (s : App) (loc : string) :
  Forall (fun handler : App -> App =>
            AuthService.startup (localStorage (handler s)) loc
            = mkApp (localStorage (handler s)) false "" None loc)
         [AuthService.logout; AlertsComponent.logout; ApiService.logout;
          DashboardComponent.logout; PlotDetailsComponent.logout].
Proof.
  assert (forall st : gmap string string,
            st !! "access_token" = None ->
            AuthService.startup st loc = mkApp st false "" None loc) as Hstart.
  { intros st Hnone. rewrite startup_restorable.
    unfold restorable_user. by rewrite Hnone. }
  rewrite !Forall_cons, Forall_nil. split_and!; try done; apply Hstart.
  - apply logout_gone. tauto.
  - apply (logout_gone s). tauto.
  - unfold ApiService.logout, LocalStorage.removeItem. simpl.
    by rewrite lookup_delete_ne, lookup_delete_eq.
  - apply lookup_delete_eq.
  - apply lookup_delete_eq.
Qed.

(** ** Recommendations: normalizer, fallback generator and template helpers *)

Lemma or_string_nonempty (o : option string) (d : string) :
  d <> "" -> Js.or_string o d <> "".
Proof.
  intros Hd. destruct o as [s|]; simpl; [|done].
  destruct (Js.truthy s) eqn:Hs; [|done]. by apply truthy_true.
Qed.

Lemma or_string_truthy_field (o : option string) :
  Js.truthy_field o = true -> Js.or_string o "" <> "".
Proof.
  destruct o as [s|]; simpl; [|done]. intros Hs. rewrite Hs. by apply truthy_true.
Qed.

Lemma or_number_truthy (o : option float) (d : float) :
  Js.truthy_number d = true -> Js.truthy_number (Js.or_number o d) = true.
Proof.
  intros Hd. destruct o as [x|]; simpl; [|done].
  by destruct (Js.truthy_number x) eqn:Hx.
Qed.

Lemma or_number_id (x : float) (d : float) :
  Js.truthy_number x = true -> Js.or_number (Some x) d = x.
Proof. intros Hx. simpl. by rewrite Hx. Qed.

(** X11: whatever the response (missing, empty or partial), both normalizers
    return a recommendation with a non-empty action, a non-empty explanation
    and a confidence that is neither zero nor NaN; [formatRecommendation]
    stamps it with the current time.  Hence the template helpers of the
    alerts view show exactly these three values for an anomaly carrying it,
    never their placeholders. *)
Theorem normalizers_well_formed (now : string) (response : option Payload.t)
    (a : Anomaly) :
  let r := AlertsComponent.formatRecommendation now response in
  let d := PlotDetailsComponent.normalize response in
  let shown := set_recommendation (Some r) false a in
  (Rec.recommended_action r <> "" /\ Rec.explanation_text r <> "" /\
   Js.truthy_number (Rec.confidence r) = true /\ Rec.timestamp r = Some now) /\
  (Rec.recommended_action d <> "" /\ Rec.explanation_text d <> "" /\
   Js.truthy_number (Rec.confidence d) = true) /\
  AlertsComponentRest.getRecommendationAction shown = Rec.recommended_action r /\
  AlertsComponentRest.getRecommendationExplanation shown = Rec.explanation_text r /\
  AlertsComponentRest.getRecommendationConfidence shown = Rec.confidence r.
Proof.
  intros r d shown.
  assert (Rec.recommended_action r <> "" /\ Rec.explanation_text r <> "" /\
          Js.truthy_number (Rec.confidence r) = true /\ Rec.timestamp r = Some now)
    as Hr.
  { subst r. unfold AlertsComponent.formatRecommendation.
    destruct response as [p|]; [|done].
    destruct (Js.truthy_field (Payload.recommended_action p)) eqn:H1;
      [|destruct (Js.truthy_field (Payload.recommendation p)) eqn:H2;
        [|destruct (Js.truthy_field (Payload.action p)) eqn:H3]];
      simpl; split_and!;
      first [ done
            | by apply or_string_truthy_field
            | by apply or_string_nonempty
            | by apply or_number_truthy ]. }
  split; [exact Hr|]. split.
  - subst d. unfold PlotDetailsComponent.normalize.
    destruct response as [p|]; [|done].
    destruct (Js.truthy_field (Payload.recommended_action p)) eqn:H1;
      [|destruct (Js.truthy_field (Payload.recommendation p)) eqn:H2];
      simpl; split_and!;
      first [ done
            | by apply or_string_truthy_field
            | by apply or_string_nonempty
            | by apply or_number_truthy ].
  - destruct Hr as (Ha & He & Hc & _). subst shown.
    unfold AlertsComponentRest.getRecommendationAction,
      AlertsComponentRest.getRecommendationExplanation,
      AlertsComponentRest.getRecommendationConfidence.
    cbn [agent_recommendation set_recommendation].
    split_and!.
    + by apply or_string_Some.
    + by apply or_string_Some.
    + by apply or_number_id.
Qed.

Lemma append_String (c : Ascii.ascii) (s t : string) :
  String c s +:+ t = String c (s +:+ t).
Proof. reflexivity. Qed.

Lemma prefix_spec (sub s : string) :
  String.prefix sub s = true <-> exists post, s = sub +:+ post.
Proof.
  revert sub. induction s as [|b s IH]; intros [|a sub]; simpl.
  - split; [intros _; by exists ""|done].
  - split; [done|]. intros [post Hpost]. by rewrite append_String in Hpost.
  - split; [intros _; by exists (String b s)|done].
  - destruct (Ascii.ascii_dec a b) as [->|Hab].
    + rewrite IH. split; intros [post Hpost]; exists post;
        rewrite append_String in *; congruence.
    + split; [done|]. intros [post Hpost]. rewrite append_String in Hpost. congruence.
Qed.

(** [Js.includes] decides containment. *)
Lemma includes_spec (s sub : string) :
  Js.includes s sub = true <-> contains s sub.
Proof.
  unfold contains. induction s as [|c s IH].
  - change (Js.includes "" sub) with (String.prefix sub "" || false)%bool.
    rewrite orb_false_r, prefix_spec. split.
    + intros [post Hpost]. by exists "", post.
    + intros (pre & post & Hs). destruct pre; [by exists post|].
      by rewrite append_String in Hs.
  - change (Js.includes (String c s) sub)
      with (String.prefix sub (String c s) || Js.includes s sub)%bool.
    rewrite orb_true_iff, prefix_spec, IH. split.
    + intros [[post Hpost]|(pre & post & Hs)].
      * by exists "", post.
      * exists (String c pre), post. by rewrite append_String, Hs.
    + intros (pre & post & Hs). destruct pre as [|c' pre].
      * left. by exists post.
      * right. exists pre, post. rewrite append_String in Hs. congruence.
Qed.

(** X13: the rule table is matched on the lower-cased type, by containment.
    Every anomaly whose lower-cased type contains both "moisture" and "low",
    in any position and whatever the original letter case or the severity,
    gets the irrigation rule with confidence 0.85. *)
Theorem moisture_low_rule (now : string) (a : Anomaly) :
  contains (AlertsComponent.type_of a) "moisture" ->
  contains (AlertsComponent.type_of a) "low" ->
  AlertsComponent.getMockRecommendation now a
  = Rec.mk "Increase irrigation by 20-30% for the next 48 hours"
           "Soil moisture below optimal range. Plants showing early signs of water stress."
           0.85 (Some now) (Some "ai_agent_mock").
Proof.
  intros Hm Hl. apply includes_spec in Hm, Hl.
  unfold AlertsComponent.getMockRecommendation, AlertsComponent.mockRecommendations.
  simpl. by rewrite Hm, Hl.
Qed.

Lemma moisture_low_rule_witness :
  AlertsComponent.getMockRecommendation "now"
    (mkAnomaly 4 (Some "Soil_MOISTURE_too_Low") None false None)
  = Rec.mk "Increase irrigation by 20-30% for the next 48 hours"
           "Soil moisture below optimal range. Plants showing early signs of water stress."
           0.85 (Some "now") (Some "ai_agent_mock").
Proof.
  apply (moisture_low_rule "now" (mkAnomaly 4 (Some "Soil_MOISTURE_too_Low") None false None)).
  - by exists "soil_", "_too_low".
  - by exists "soil_moisture_too_", "".
Defined.

(** *** The fallback generator with the members of its result *)

Lemma not_contains (s sub : string) : ~ contains s sub -> Js.includes s sub = false.
Proof. rewrite <- includes_spec. apply not_true_is_false. Qed.

Lemma not_both (s x y : string) :
  ~ (contains s x /\ contains s y) -> (Js.includes s x && Js.includes s y)%bool = false.
Proof.
  rewrite <- !includes_spec. intros Hnot.
  destruct (Js.includes s x), (Js.includes s y); try done. by destruct Hnot.
Qed.

Lemma own_key_unknown (sev : string) :
  sev <> "high" -> sev <> "medium" -> sev <> "low" ->
  AlertsComponent.defaultActions !! sev = None.
Proof.
  intros Hh Hm Hl. unfold AlertsComponent.defaultActions.
  by rewrite !lookup_insert_ne, lookup_singleton_ne.
Qed.

(** No inherited name is a key of the table. *)
Lemma inherited_not_own (sev : string) :
  sev ∈ MockObject.inherited -> sev <> "high" /\ sev <> "medium" /\ sev <> "low".
Proof.
  unfold MockObject.inherited. rewrite !elem_of_cons, elem_of_nil.
  intros Hin. repeat (destruct Hin as [->|Hin]; [by split_and!|]). done.
Qed.

Lemma defaultRec_inherited (sev : string) :
  sev ∈ MockObject.inherited -> MockObject.defaultRec sev = MockObject.Inherited.
Proof.
  intros Hin. destruct (inherited_not_own sev Hin) as (Hh & Hm & Hl).
  unfold MockObject.defaultRec, MockObject.defaultActions.
  rewrite own_key_unknown by done. by rewrite bool_decide_eq_true_2.
Qed.

Lemma defaultRec_own (sev : string) :
  sev ∉ MockObject.inherited ->
  MockObject.defaultRec sev
  = MockObject.Own (if decide (sev = "high") then AlertsComponent.default_high
                    else if decide (sev = "low") then AlertsComponent.default_low
                    else AlertsComponent.default_medium).
Proof.
  intros Hout. unfold MockObject.defaultRec, MockObject.defaultActions.
  destruct (decide (sev = "high")) as [->|Hh]; [done|].
  destruct (decide (sev = "low")) as [->|Hl]; [done|].
  destruct (decide (sev = "medium")) as [->|Hm]; [done|].
  rewrite own_key_unknown by done. by rewrite bool_decide_eq_false_2.
Qed.

Lemma mock_matched (now : string) (a : Anomaly) (rule : AlertsComponent.Rule.t) :
  List.find AlertsComponent.Rule.condition
    (AlertsComponent.mockRecommendations (AlertsComponent.type_of a)) = Some rule ->
  MockObject.getMockRecommendation now a
  = MockObject.members (AlertsComponent.Rule.action rule)
      (AlertsComponent.Rule.explanation rule) (AlertsComponent.Rule.confidence rule) now /\
  MockObject.getMockRecommendation now a
  = MockObject.of_rec (AlertsComponent.getMockRecommendation now a).
Proof.
  intros Hfind.
  unfold MockObject.getMockRecommendation, AlertsComponent.getMockRecommendation.
  by rewrite Hfind.
Qed.

Lemma mock_unmatched (now : string) (a : Anomaly) :
  List.find AlertsComponent.Rule.condition
    (AlertsComponent.mockRecommendations (AlertsComponent.type_of a)) = None ->
  (AlertsComponent.severity_of a ∈ MockObject.inherited ->
   MockObject.getMockRecommendation now a
   = MockObject.mk None None None (Some now) (Some "ai_agent_mock")) /\
  (AlertsComponent.severity_of a ∉ MockObject.inherited ->
   MockObject.getMockRecommendation now a
   = (let e :=
        if decide (AlertsComponent.severity_of a = "high") then AlertsComponent.default_high
        else if decide (AlertsComponent.severity_of a = "low") then AlertsComponent.default_low
        else AlertsComponent.default_medium in
      MockObject.members (AlertsComponent.Default.action e)
        (AlertsComponent.Default.explanation e) (AlertsComponent.Default.confidence e) now) /\
   MockObject.getMockRecommendation now a
   = MockObject.of_rec (AlertsComponent.getMockRecommendation now a)).
Proof.
  intros Hfind.
  unfold MockObject.getMockRecommendation, AlertsComponent.getMockRecommendation.
  rewrite Hfind. split.
  - intros Hin. by rewrite defaultRec_inherited.
  - intros Hout. rewrite defaultRec_own by done. split; [done|].
    unfold AlertsComponent.defaultRec.
    destruct (decide (AlertsComponent.severity_of a = "high")) as [->|Hh]; [done|].
    destruct (decide (AlertsComponent.severity_of a = "low")) as [->|Hl]; [done|].
    destruct (decide (AlertsComponent.severity_of a = "medium")) as [->|Hm]; [done|].
    by rewrite own_key_unknown.
Qed.

(** The first rule of the table that matches, from what the type contains. *)
Lemma find_rule (type : string) :
  List.find AlertsComponent.Rule.condition (AlertsComponent.mockRecommendations type)
  = let m := Js.includes type "moisture" in
    let l := Js.includes type "low" in
    let h := Js.includes type "high" in
    let t := Js.includes type "temperature" in
    let u := Js.includes type "humidity" in
    if (m && l)%bool then
      Some (AlertsComponent.Rule.mk true
              "Increase irrigation by 20-30% for the next 48 hours"
              "Soil moisture below optimal range. Plants showing early signs of water stress."
              0.85)
    else if (m && h)%bool then
      Some (AlertsComponent.Rule.mk true
              "Stop irrigation immediately and improve drainage systems"
              "Excess soil moisture detected. Risk of root rot and fungal diseases."
              0.82)
    else if (t && h)%bool then
      Some (AlertsComponent.Rule.mk true
              "Deploy shade nets and increase irrigation frequency"
              "High temperature stress detected. Crops at risk of heat damage."
              0.8)
    else if (t && l)%bool then
      Some (AlertsComponent.Rule.mk true
              "Activate frost protection and reduce irrigation"
              "Low temperature alert. Protect sensitive crops from frost damage."
              0.78)
    else if (u && h)%bool then
      Some (AlertsComponent.Rule.mk true
              "Improve ventilation and monitor for fungal diseases"
              "High humidity promotes fungal growth and reduces transpiration."
              0.75)
    else None.
Proof.
  unfold AlertsComponent.mockRecommendations.
  by destruct (Js.includes type "moisture"), (Js.includes type "low"),
    (Js.includes type "high"), (Js.includes type "temperature"),
    (Js.includes type "humidity").
Qed.

(** Settles a goal on the result of a matching rule, leaving the search. *)
Ltac by_rule now a :=
  match goal with
  | |- _ = MockObject.members ?x ?y ?c _ =>
      destruct (mock_matched now a (AlertsComponent.Rule.mk true x y c)) as [-> _];
      [rewrite find_rule; cbn zeta | done]
  end.

(** C6: when no rule matches, the fallback generator should use the
    severity-keyed default table with the medium entry for unknown
    severities.  It does so for an unknown severity such as "urgent".  For
    a severity that names a member every object inherits, such as
    "constructor", the lookup in the table object finds that member, the
    medium entry is not used, and the action, explanation and confidence of
    the result are undefined: the alerts view then shows "No recommendation
    available" with confidence level "low". *)
Theorem getMockRecommendation_inherited_severity :
  let unknown := mkAnomaly 9 (Some "pest_outbreak") (Some "urgent") false None in
  let a := mkAnomaly 9 (Some "pest_outbreak") (Some "constructor") false None in
  let r := MockObject.getMockRecommendation "now" a in
  List.find AlertsComponent.Rule.condition
    (AlertsComponent.mockRecommendations (AlertsComponent.type_of a)) = None /\
  AlertsComponent.defaultActions !! "urgent" = None /\
  AlertsComponent.defaultActions !! "constructor" = None /\
  MockObject.getMockRecommendation "now" unknown
  = MockObject.members
      "Schedule inspection within 24 hours and adjust practices."
      "Moderate risk anomaly. Monitor closely." 0.75 "now" /\
  MockObject.defaultRec "constructor" = MockObject.Inherited /\
  r = MockObject.mk None None None (Some "now") (Some "ai_agent_mock") /\
  MockObject.recommended_action r
  <> Some "Schedule inspection within 24 hours and adjust practices." /\
  MockObject.getRecommendationAction r = "No recommendation available" /\
  MockObject.getConfidenceLevel r = "low".
Proof. repeat split. discriminate. Qed.

(** X25: the rule table of the fallback generator, entry by entry.  The
    rules are tried in the order moisture+low, moisture+high,
    temperature+high, temperature+low, humidity+high on the lower-cased
    type, and the first that matches supplies action, explanation and
    confidence; the type "low_soil_moisture" gets the first rule whatever
    the severity.  When none matches, the severity-keyed table supplies
    them: the entries of "high" and "low" for these severities, and the
    medium entry for a missing or empty severity, for "medium", and for
    every other severity that does not name a member objects inherit. *)
Theorem getMockRecommendation_rules (now : string) (a : Anomaly) :
  let r := MockObject.getMockRecommendation now a in
  let type := AlertsComponent.type_of a in
  let sev := AlertsComponent.severity_of a in
  (anomaly_type a = Some "low_soil_moisture" ->
   MockObject.recommended_action r
   = Some "Increase irrigation by 20-30% for the next 48 hours" /\
   MockObject.confidence r = Some 0.85%float) /\
  (contains type "moisture" -> contains type "low" ->
   r = MockObject.members
         "Increase irrigation by 20-30% for the next 48 hours"
         "Soil moisture below optimal range. Plants showing early signs of water stress."
         0.85 now) /\
  (contains type "moisture" -> ~ contains type "low" -> contains type "high" ->
   r = MockObject.members
         "Stop irrigation immediately and improve drainage systems"
         "Excess soil moisture detected. Risk of root rot and fungal diseases."
         0.82 now) /\
  (~ contains type "moisture" -> contains type "temperature" -> contains type "high" ->
   r = MockObject.members
         "Deploy shade nets and increase irrigation frequency"
         "High temperature stress detected. Crops at risk of heat damage."
         0.8 now) /\
  (~ contains type "moisture" -> contains type "temperature" ->
   ~ contains type "high" -> contains type "low" ->
   r = MockObject.members
         "Activate frost protection and reduce irrigation"
         "Low temperature alert. Protect sensitive crops from frost damage."
         0.78 now) /\
  (~ contains type "moisture" -> ~ contains type "temperature" ->
   contains type "humidity" -> contains type "high" ->
   r = MockObject.members
         "Improve ventilation and monitor for fungal diseases"
         "High humidity promotes fungal growth and reduces transpiration."
         0.75 now) /\
  (~ (contains type "moisture" /\ contains type "low") ->
   ~ (contains type "moisture" /\ contains type "high") ->
   ~ (contains type "temperature" /\ contains type "high") ->
   ~ (contains type "temperature" /\ contains type "low") ->
   ~ (contains type "humidity" /\ contains type "high") ->
   (sev = "high" ->
    r = MockObject.members
          "Immediate field inspection required. Consider emergency measures."
          "Critical anomaly detected. High impact on crop health." 0.9 now) /\
   (sev = "low" ->
    r = MockObject.members
          "Monitor trend and adjust during next regular maintenance."
          "Minor anomaly. Low immediate risk." 0.65 now) /\
   (sev <> "high" -> sev <> "low" -> sev ∉ MockObject.inherited ->
    r = MockObject.members
          "Schedule inspection within 24 hours and adjust practices."
          "Moderate risk anomaly. Monitor closely." 0.75 now)).
Proof.
  intros r type sev. subst r type sev. split_and!.
  - intros Hty.
    destruct (mock_matched now a
                (AlertsComponent.Rule.mk true
                   "Increase irrigation by 20-30% for the next 48 hours"
                   "Soil moisture below optimal range. Plants showing early signs of water stress."
                   0.85)) as [-> _]; [|done].
    unfold AlertsComponent.type_of. by rewrite Hty.
  - intros Hm Hl. apply includes_spec in Hm, Hl.
    by_rule now a. by rewrite Hm, Hl.
  - intros Hm Hl Hh. apply includes_spec in Hm, Hh. apply not_contains in Hl.
    by_rule now a. by rewrite Hm, Hl, Hh.
  - intros Hm Ht Hh. apply includes_spec in Ht, Hh. apply not_contains in Hm.
    by_rule now a. by rewrite Hm, Ht, Hh.
  - intros Hm Ht Hh Hl. apply includes_spec in Ht, Hl. apply not_contains in Hm, Hh.
    by_rule now a. by rewrite Hm, Ht, Hh, Hl.
  - intros Hm Ht Hu Hh. apply includes_spec in Hu, Hh. apply not_contains in Hm, Ht.
    by_rule now a. by rewrite Hm, Ht, Hu, Hh.
  - intros H1 H2 H3 H4 H5.
    apply not_both in H1, H2, H3, H4, H5.
    assert (List.find AlertsComponent.Rule.condition
              (AlertsComponent.mockRecommendations (AlertsComponent.type_of a)) = None)
      as Hnone by (rewrite find_rule; cbn zeta; by rewrite H1, H2, H3, H4, H5).
    destruct (mock_unmatched now a Hnone) as [_ Hown]. split_and!.
    + intros Hsev. destruct Hown as [-> _]; rewrite Hsev; [|done].
      unfold MockObject.inherited. rewrite !elem_of_cons, elem_of_nil.
      intros Hin. repeat (destruct Hin as [Hin|Hin]; [discriminate Hin|]). done.
    + intros Hsev. destruct Hown as [-> _]; rewrite Hsev; [|done].
      unfold MockObject.inherited. rewrite !elem_of_cons, elem_of_nil.
      intros Hin. repeat (destruct Hin as [Hin|Hin]; [discriminate Hin|]). done.
    + intros Hh Hl Hout. destruct (Hown Hout) as [-> _].
      by rewrite !decide_False.
Qed.

Lemma getMockRecommendation_rules_witness :
  MockObject.getMockRecommendation "now"
    (mkAnomaly 6 (Some "Pest_Outbreak") (Some "urgent") false None)
  = MockObject.members
      "Schedule inspection within 24 hours and adjust practices."
      "Moderate risk anomaly. Monitor closely." 0.75 "now".
Proof.
  assert (forall sub, Js.includes "pest_outbreak" sub = false ->
            ~ contains "pest_outbreak" sub) as Hnot.
  { intros sub Hsub Hc. apply includes_spec in Hc. congruence. }
  apply (proj2 (proj2 (proj2 (proj2 (proj2 (proj2
           (getMockRecommendation_rules "now"
              (mkAnomaly 6 (Some "Pest_Outbreak") (Some "urgent") false None))))))));
    try (intros [Hc _]; revert Hc; by apply Hnot);
    try discriminate.
  unfold MockObject.inherited. rewrite !elem_of_cons, elem_of_nil.
  intros Hin. repeat (destruct Hin as [Hin|Hin]; [discriminate Hin|]). done.
Defined.

(** X12: the result of the fallback generator is always marked
    "ai_agent_mock" and stamped with the current time.  When a rule matches,
    or the severity does not name a member objects inherit, its action and
    explanation are non-empty, its confidence lies between 0.65 and 0.9 and
    the alerts view rates it "high" or "medium".  When no rule matches and
    the severity names an inherited member, action, explanation and
    confidence are undefined, the view shows "No recommendation available"
    and rates it "low". *)
Theorem getMockRecommendation_bounds (now : string) (a : Anomaly) :
  let r := MockObject.getMockRecommendation now a in
  let found :=
    List.find AlertsComponent.Rule.condition
      (AlertsComponent.mockRecommendations (AlertsComponent.type_of a)) in
  MockObject.source r = Some "ai_agent_mock" /\ MockObject.timestamp r = Some now /\
  (is_Some found \/ AlertsComponent.severity_of a ∉ MockObject.inherited ->
   r = MockObject.of_rec (AlertsComponent.getMockRecommendation now a) /\
   (exists action explanation confidence,
      r = MockObject.members action explanation confidence now /\
      action <> "" /\ explanation <> "" /\
      PrimFloat.leb 0.65 confidence = true /\ PrimFloat.leb confidence 0.9 = true) /\
   (MockObject.getConfidenceLevel r = "high" \/
    MockObject.getConfidenceLevel r = "medium")) /\
  (found = None -> AlertsComponent.severity_of a ∈ MockObject.inherited ->
   r = MockObject.mk None None None (Some now) (Some "ai_agent_mock") /\
   MockObject.getRecommendationAction r = "No recommendation available" /\
   MockObject.getConfidenceLevel r = "low").
Proof.
  intros r found. subst r found.
  destruct (List.find AlertsComponent.Rule.condition
              (AlertsComponent.mockRecommendations (AlertsComponent.type_of a)))
    as [rule|] eqn:Hfind.
  - destruct (mock_matched now a rule Hfind) as [Hr Hrec]. rewrite <- Hrec, Hr.
    split_and!; [done|done| |done].
    intros _. split; [done|].
    rewrite find_rule in Hfind. cbn zeta in Hfind.
    repeat match type of Hfind with
           | (if ?b then _ else _) = _ => destruct b
           end;
      try discriminate; injection Hfind as <-;
      (split; [by eexists _, _, _|]); first [by left | by right].
  - destruct (mock_unmatched now a Hfind) as [Hin Hown].
    destruct (decide (AlertsComponent.severity_of a ∈ MockObject.inherited))
      as [Hsev|Hsev].
    + rewrite (Hin Hsev). split_and!; [done|done| |done].
      intros [[? [=]]|?]; done.
    + destruct (Hown Hsev) as [Hr Hrec]. rewrite <- Hrec, Hr.
      split_and!; [done|done| |done].
      intros _. split; [done|].
      repeat case_decide;
        (split; [by eexists _, _, _|]); first [by left | by right].
Qed.

(** X14: an anomaly whose lower-cased type (empty when the type is missing)
    contains none of "moisture", "temperature" and "humidity" matches no
    rule.  Its fallback is the "high" or "low" entry of the severity table
    for these severities; for any other severity it has undefined action,
    explanation and confidence when the severity names a member objects
    inherit, and is the medium entry otherwise. *)
Theorem unrelated_type_default (now : string) (a : Anomaly) :
  ~ contains (AlertsComponent.type_of a) "moisture" ->
  ~ contains (AlertsComponent.type_of a) "temperature" ->
  ~ contains (AlertsComponent.type_of a) "humidity" ->
  MockObject.getMockRecommendation now a
  = if decide (AlertsComponent.severity_of a = "high") then
      MockObject.members
        "Immediate field inspection required. Consider emergency measures."
        "Critical anomaly detected. High impact on crop health." 0.9 now
    else if decide (AlertsComponent.severity_of a = "low") then
      MockObject.members
        "Monitor trend and adjust during next regular maintenance."
        "Minor anomaly. Low immediate risk." 0.65 now
    else if bool_decide (AlertsComponent.severity_of a ∈ MockObject.inherited) then
      MockObject.mk None None None (Some now) (Some "ai_agent_mock")
    else
      MockObject.members
        "Schedule inspection within 24 hours and adjust practices."
        "Moderate risk anomaly. Monitor closely." 0.75 now.
Proof.
  intros Hm Ht Hu. apply not_contains in Hm, Ht, Hu.
  assert (List.find AlertsComponent.Rule.condition
            (AlertsComponent.mockRecommendations (AlertsComponent.type_of a)) = None)
    as Hnone by (rewrite find_rule; cbn zeta; by rewrite Hm, Ht, Hu).
  destruct (mock_unmatched now a Hnone) as [Hin Hown].
  destruct (decide (AlertsComponent.severity_of a ∈ MockObject.inherited)) as [Hsev|Hsev].
  - rewrite (Hin Hsev), (bool_decide_eq_true_2 _ Hsev).
    destruct (inherited_not_own _ Hsev) as (Hh & _ & Hl).
    by rewrite !decide_False.
  - destruct (Hown Hsev) as [-> _]. rewrite (bool_decide_eq_false_2 _ Hsev).
    by repeat case_decide.
Qed.

Lemma unrelated_type_default_witness :
  MockObject.getMockRecommendation "now"
    (mkAnomaly 5 (Some "Pest_Outbreak") (Some "toString") false None)
  = MockObject.mk None None None (Some "now") (Some "ai_agent_mock").
Proof.
  apply (unrelated_type_default "now"
           (mkAnomaly 5 (Some "Pest_Outbreak") (Some "toString") false None));
    rewrite <- includes_spec; discriminate.
Defined.

(** ** The alerts view *)



(** X16: [regenerateRecommendation(anomaly)] clears the recommendation
    before it delegates.  When the anomaly is loading or being processed the
    delegate returns at once, so the anomaly is left without any
    recommendation; otherwise the result is the one of
    [generateRecommendation], the earlier recommendation playing no part. *)
Theorem regenerateRecommendation_clears (now : string)
    (res : Outcome (option Payload.t)) (a : Anomaly) (v : AlertsComponent.View) :
  (loadingRecommendation a = true \/
   anomaly_id a ∈ AlertsComponent.processingAnomalies v ->
   snd (AlertsComponentRest.regenerateRecommendation now res a v) = v /\
   agent_recommendation (fst (AlertsComponentRest.regenerateRecommendation now res a v))
   = None /\
   loadingRecommendation (fst (AlertsComponentRest.regenerateRecommendation now res a v))
   = loadingRecommendation a) /\
  (loadingRecommendation a = false ->
   anomaly_id a ∉ AlertsComponent.processingAnomalies v ->
   AlertsComponentRest.regenerateRecommendation now res a v
   = AlertsComponent.generateRecommendation now res a v).
Proof.
  unfold AlertsComponentRest.regenerateRecommendation,
    AlertsComponent.generateRecommendation.
  cbn [loadingRecommendation anomaly_id set_recommendation]. split.
  - intros [->|Hin]; [done|].
    rewrite (bool_decide_eq_true_2 _ Hin). by rewrite orb_true_r.
  - intros -> Hout. rewrite (bool_decide_eq_false_2 _ Hout). simpl.
    by destruct res.
Qed.

Lemma regenerateRecommendation_clears_witness :
  let a := mkAnomaly 1 (Some "low_soil_moisture") (Some "high") true
             (Some (AlertsComponent.getMockRecommendation "then"
                      (low_soil_moisture (Some "high")))) in
  let v := AlertsComponent.loadAnomalies AlertsComponent.initial in
  snd (AlertsComponentRest.regenerateRecommendation "now" (Next None) a v) = v /\
  agent_recommendation
    (fst (AlertsComponentRest.regenerateRecommendation "now" (Next None) a v)) = None /\
  loadingRecommendation
    (fst (AlertsComponentRest.regenerateRecommendation "now" (Next None) a v))
  = loadingRecommendation a.
Proof.
  intros a v.
  apply (proj1 (regenerateRecommendation_clears "now" (Next None) a v)).
  left. reflexivity.
Defined.

(** What the batch loop does to the element at each index. *)
Lemma forEach_attach_spec (now : string) (rs : list (list Payload.t)) :
  forall (k : nat) (l : list Anomaly),
    (k + length rs <= length l)%nat ->
    length (AlertsComponentRest.forEach_attach now k rs l) = length l /\
    (forall i, (i < k)%nat ->
       AlertsComponentRest.forEach_attach now k rs l !! i = l !! i) /\
    (forall i a recs, l !! (k + i)%nat = Some a -> rs !! i = Some recs ->
       AlertsComponentRest.forEach_attach now k rs l !! (k + i)%nat
       = Some match recs with
              | [] => a
              | r :: _ =>
                set_recommendation
                  (Some (AlertsComponent.formatRecommendation now (Some r)))
                  (loadingRecommendation a) a
              end).
Proof.
  induction rs as [|recs0 rest IH]; intros k l Hlen;
    cbn [AlertsComponentRest.forEach_attach]; cbn [length] in Hlen.
  - split_and!; done.
  - destruct recs0 as [|r0 tl].
    + destruct (IH (S k) l) as (IHlen & IHbefore & IHat); [lia|].
      split_and!; [done|intros i Hi; apply IHbefore; lia|].
      intros [|i] a recs Ha Hrecs; simpl in Hrecs.
      * injection Hrecs as <-. rewrite IHbefore by lia. done.
      * rewrite Nat.add_succ_r in *. by apply (IHat i).
    + destruct (lookup_lt_is_Some_2 l k) as [a0 Ha0]; [lia|]. rewrite Ha0.
      destruct (IH (S k) (<[k :=
                  set_recommendation
                    (Some (AlertsComponent.formatRecommendation now (Some r0)))
                    (loadingRecommendation a0) a0]> l))
        as (IHlen & IHbefore & IHat); [rewrite length_insert; lia|].
      rewrite length_insert in IHlen.
      split_and!; [done| |].
      * intros i Hi. rewrite IHbefore by lia. apply list_lookup_insert_ne. lia.
      * intros [|i] a recs Ha Hrecs; simpl in Hrecs.
        -- injection Hrecs as <-. rewrite Nat.add_0_r in *.
           rewrite IHbefore by lia. rewrite list_lookup_insert_eq by lia.
           congruence.
        -- rewrite Nat.add_succ_r in *. apply (IHat i); [|done].
           rewrite list_lookup_insert_ne by lia. done.
Qed.

(** X17: loading the existing recommendations for all anomalies treats each
    request on its own.  With one outcome per anomaly, the list keeps its
    length and the anomaly at each index keeps its recommendation when its
    request failed or returned an empty list, and otherwise gets the first
    returned recommendation in normalized form (its loading flag unchanged);
    one failing request never affects the other anomalies. *)
Theorem loadExistingRecommendations_per_item (now : string)
    (outcomes : list (Outcome (list Payload.t))) (v : AlertsComponent.View) :
  length outcomes = length (AlertsComponent.anomalies v) ->
  let v' := AlertsComponentRest.loadExistingRecommendationsForAll now outcomes v in
  length (AlertsComponent.anomalies v') = length (AlertsComponent.anomalies v) /\
  forall i a o,
    AlertsComponent.anomalies v !! i = Some a -> outcomes !! i = Some o ->
    AlertsComponent.anomalies v' !! i
    = Some match o with
           | Next (r :: _) =>
             set_recommendation
               (Some (AlertsComponent.formatRecommendation now (Some r)))
               (loadingRecommendation a) a
           | _ => a
           end.
Proof.
  intros Hlen v'. subst v'.
  unfold AlertsComponentRest.loadExistingRecommendationsForAll.
  destruct (AlertsComponent.anomalies v) as [|a0 l] eqn:Hl; [by rewrite Hl|].
  cbn [AlertsComponent.anomalies].
  destruct (forEach_attach_spec now (AlertsComponentRest.or_empty <$> outcomes) 0 (a0 :: l))
    as (Hlength & _ & Hat); [rewrite length_fmap; simpl in *; lia|].
  split; [done|].
  intros i a o Ha Ho.
  pose proof (Hat i a (AlertsComponentRest.or_empty o)) as Hi.
  cbn [Nat.add] in Hi. rewrite Hi; [|done|].
  - by destruct o as [[|r tl]|e].
  - by rewrite list_lookup_fmap, Ho.
Qed.

Lemma loadExistingRecommendations_per_item_witness :
  let v :=
    AlertsComponentRest.loadAnomalies_next
      [low_soil_moisture (Some "high"); low_soil_moisture (Some "low")]
      (AlertsComponent.loadAnomalies AlertsComponent.initial) in
  let outcomes :=
    [Error (HttpErrorResponse 500);
     Next [Payload.mk None (Some "Irrigate now") None None None None]] in
  let v' := AlertsComponentRest.loadExistingRecommendationsForAll "now" outcomes v in
  length (AlertsComponent.anomalies v') = length (AlertsComponent.anomalies v) /\
  forall i a o,
    AlertsComponent.anomalies v !! i = Some a -> outcomes !! i = Some o ->
    AlertsComponent.anomalies v' !! i
    = Some match o with
           | Next (r :: _) =>
             set_recommendation
               (Some (AlertsComponent.formatRecommendation "now" (Some r)))
               (loadingRecommendation a) a
           | _ => a
           end.
Proof.
  intros v outcomes.
  apply (loadExistingRecommendations_per_item "now" outcomes v). reflexivity.
Defined.

Lemma severity_counts_cons (a : Anomaly) (l : list Anomaly) :
  (AlertsComponentRest.getCriticalCount (a :: l)
   + AlertsComponentRest.getWarningCount (a :: l)
   + AlertsComponentRest.getInfoCount (a :: l)
   = (if bool_decide (severity a ∈ [Some "high"; Some "medium"; Some "low"])
      then 1 else 0)
     + (AlertsComponentRest.getCriticalCount l
        + AlertsComponentRest.getWarningCount l
        + AlertsComponentRest.getInfoCount l))%nat.
Proof.
  unfold AlertsComponentRest.getCriticalCount, AlertsComponentRest.getWarningCount,
    AlertsComponentRest.getInfoCount.
  rewrite !filter_cons.
  destruct (decide (severity a = Some "high")) as [Hh|Hh];
    destruct (decide (severity a = Some "medium")) as [Hm|Hm];
    destruct (decide (severity a = Some "low")) as [Hl|Hl];
    try congruence.
  - rewrite Hh. simpl. lia.
  - rewrite Hm. simpl. lia.
  - rewrite Hl. simpl. lia.
  - rewrite bool_decide_eq_false_2; [simpl; lia|].
    rewrite !elem_of_cons, elem_of_nil. tauto.
Qed.

(** X18: the severity filter and the counters of the alerts view.  The
    filter "all" shows every anomaly; any other filter shows, in order,
    exactly the anomalies of that severity, as many as [getCountBySeverity]
    counts.  The critical, warning and info counters never add up to more
    than the number of anomalies, and add up to it exactly when every anomaly
    has one of the severities "high", "medium" and "low". *)
Theorem severity_filters (selectedFilter : string) (l : list Anomaly) :
  AlertsComponentRest.getFilteredAnomalies "all" l = l /\
  (selectedFilter <> "all" ->
   length (AlertsComponentRest.getFilteredAnomalies selectedFilter l)
   = AlertsComponentRest.getCountBySeverity selectedFilter l /\
   AlertsComponentRest.getFilteredAnomalies selectedFilter l `sublist_of` l /\
   (forall a, a ∈ AlertsComponentRest.getFilteredAnomalies selectedFilter l <->
              a ∈ l /\ severity a = Some selectedFilter)) /\
  (AlertsComponentRest.getCriticalCount l + AlertsComponentRest.getWarningCount l
   + AlertsComponentRest.getInfoCount l <= length l)%nat /\
  ((AlertsComponentRest.getCriticalCount l + AlertsComponentRest.getWarningCount l
    + AlertsComponentRest.getInfoCount l = length l)%nat <->
   Forall (fun a => severity a ∈ [Some "high"; Some "medium"; Some "low"]) l).
Proof.
  split_and!.
  - done.
  - intros Hne. unfold AlertsComponentRest.getFilteredAnomalies,
      AlertsComponentRest.getCountBySeverity.
    rewrite decide_False by done. split_and!; [done|apply sublist_filter|].
    intros a. rewrite list_elem_of_filter. tauto.
  - induction l as [|a l IH]; [done|].
    rewrite severity_counts_cons. simpl. case_bool_decide; lia.
  - induction l as [|a l IH]; [done|].
    rewrite severity_counts_cons, Forall_cons. simpl.
    assert (AlertsComponentRest.getCriticalCount l
            + AlertsComponentRest.getWarningCount l
            + AlertsComponentRest.getInfoCount l <= length l)%nat as Hle.
    { clear IH. induction l as [|b l IHl]; [done|].
      rewrite severity_counts_cons. simpl. case_bool_decide; lia. }
    case_bool_decide as Hsev.
    + rewrite <- IH. split; [intros; split; [done|lia]|intros [_ ->]; lia].
    + split; [lia|tauto].
Qed.

Lemma severity_filters_witness :
  let l := [low_soil_moisture (Some "high"); low_soil_moisture (Some "low");
            low_soil_moisture (Some "high")] in
  length (AlertsComponentRest.getFilteredAnomalies "high" l)
  = AlertsComponentRest.getCountBySeverity "high" l /\
  AlertsComponentRest.getFilteredAnomalies "high" l `sublist_of` l /\
  (forall a, a ∈ AlertsComponentRest.getFilteredAnomalies "high" l <->
             a ∈ l /\ severity a = Some "high").
Proof.
  intros l. apply (proj1 (proj2 (severity_filters "high" l))). discriminate.
Defined.

(** X19: the [next] callback of [loadAnomalies] starts every anomaly afresh:
    the list has the received anomalies in order with their id, type and
    severity, none loading and none with a recommendation, so every
    recommendation attached before the reload (fallback ones included) is
    gone and the template helpers show nothing; the countdown, the processing
    set and the request counter are left alone. *)
Theorem loadAnomalies_next_resets (received : list Anomaly) (v : AlertsComponent.View) :
  let v' := AlertsComponentRest.loadAnomalies_next received v in
  length (AlertsComponent.anomalies v') = length received /\
  (forall i a, received !! i = Some a ->
     exists a', AlertsComponent.anomalies v' !! i = Some a' /\
       anomaly_id a' = anomaly_id a /\ anomaly_type a' = anomaly_type a /\
       severity a' = severity a /\
       loadingRecommendation a' = false /\ agent_recommendation a' = None /\
       AlertsComponentRest.getRecommendationAction a' = "" /\
       AlertsComponentRest.getConfidenceLevel a' = "low") /\
  AlertsComponent.isLoading v' = false /\
  AlertsComponent.refreshCountdown v' = AlertsComponent.refreshCountdown v /\
  AlertsComponent.processingAnomalies v' = AlertsComponent.processingAnomalies v /\
  AlertsComponent.requested v' = AlertsComponent.requested v.
Proof.
  intros v'. subst v'. unfold AlertsComponentRest.loadAnomalies_next.
  cbn [AlertsComponent.anomalies AlertsComponent.isLoading
       AlertsComponent.refreshCountdown AlertsComponent.processingAnomalies
       AlertsComponent.requested].
  split_and!; try done.
  - apply length_fmap.
  - intros i a Ha. eexists. rewrite list_lookup_fmap, Ha. split; [done|].
    done.
Qed.

(** ** The dashboard view *)

Lemma interval_tick_before_due (k : nat) (s : DashboardTimer.State) :
  Z.of_nat k < DashboardTimer.refreshCountdown s ->
  Nat.iter k DashboardTimer.interval_tick s
  = DashboardTimer.mkState (DashboardTimer.refreshCountdown s - Z.of_nat k)
      (DashboardTimer.subscribed s) (DashboardTimer.intervals s) (DashboardTimer.loads s).
Proof.
  induction k as [|k IH]; intros Hk.
  - simpl. destruct s. simpl. f_equal. lia.
  - rewrite Nat.iter_succ, IH by lia. unfold DashboardTimer.interval_tick. simpl.
    destruct (Z.leb_spec (DashboardTimer.refreshCountdown s - Z.of_nat k - 1) 0); [lia|].
    f_equal. lia.
Qed.

(** X20: the refresh countdown of the dashboard.  When no countdown is
    running, a firing of the 30-second timer sets the countdown to 5 and starts
    one; its first four ticks only lower the countdown, and the fifth brings
    it to 0, stops the countdown and calls [loadDashboardData] exactly once.
    [ngOnDestroy] cancels the 30-second timer only: a countdown already
    started still runs to 0 and loads once after the view is destroyed. *)
Theorem dashboard_countdown (s : DashboardTimer.State) :
  DashboardTimer.intervals s = 0%nat ->
  (forall k, (k < 5)%nat ->
     Nat.iter k DashboardTimer.interval_tick (DashboardTimer.outer_fire s)
     = DashboardTimer.mkState (5 - Z.of_nat k) (DashboardTimer.subscribed s) 1
         (DashboardTimer.loads s)) /\
  Nat.iter 5 DashboardTimer.interval_tick (DashboardTimer.outer_fire s)
  = DashboardTimer.mkState 0 (DashboardTimer.subscribed s) 0
      (S (DashboardTimer.loads s)) /\
  Nat.iter 5 DashboardTimer.interval_tick
    (DashboardTimer.ngOnDestroy (DashboardTimer.outer_fire s))
  = DashboardTimer.mkState 0 false 0 (S (DashboardTimer.loads s)) /\
  (forall s',
     DashboardTimer.step
       (Nat.iter 5 DashboardTimer.interval_tick
          (DashboardTimer.ngOnDestroy (DashboardTimer.outer_fire s))) s' ->
     s' = Nat.iter 5 DashboardTimer.interval_tick
            (DashboardTimer.ngOnDestroy (DashboardTimer.outer_fire s))).
Proof.
  intros Hidle.
  assert (forall t, DashboardTimer.refreshCountdown t = 5 ->
            Nat.iter 5 DashboardTimer.interval_tick t
            = DashboardTimer.mkState 0 (DashboardTimer.subscribed t)
                (pred (DashboardTimer.intervals t)) (S (DashboardTimer.loads t))) as Hfive.
  { intros t Ht. change 5%nat with (S 4).
    rewrite Nat.iter_succ, interval_tick_before_due by (rewrite Ht; lia).
    unfold DashboardTimer.interval_tick. simpl. by rewrite Ht. }
  split_and!.
  - intros k Hk. rewrite interval_tick_before_due by (simpl; lia).
    simpl. by rewrite Hidle.
  - rewrite Hfive by done. simpl. by rewrite Hidle.
  - rewrite Hfive by done. simpl. by rewrite Hidle.
  - rewrite Hfive by done. simpl. rewrite Hidle. simpl.
    intros s' Hstep. inversion Hstep; subst; simpl in *; [done|lia|done].
Qed.

Lemma dashboard_countdown_witness :
  Nat.iter 5 DashboardTimer.interval_tick
    (DashboardTimer.ngOnDestroy (DashboardTimer.outer_fire DashboardTimer.ngOnInit))
  = DashboardTimer.mkState 0 false 0 2.
Proof.
  apply (proj1 (proj2 (proj2 (dashboard_countdown DashboardTimer.ngOnInit eq_refl)))).
Defined.

(** Updating the first element that satisfies a test, found by index. *)
Lemma alter_first_match {A : Type} (P : A -> Prop) `{!forall x, Decision (P x)}
    (f : A -> A) (l : list A) :
  let l' :=
    match fst <$> list_find P l with
    | Some i => alter f i l
    | None => l
    end in
  length l' = length l /\
  (forall i x, l !! i = Some x -> ~ P x -> l' !! i = Some x) /\
  (forall i x, l !! i = Some x -> P x ->
     (forall j y, (j < i)%nat -> l !! j = Some y -> ~ P y) -> l' !! i = Some (f x)) /\
  ((forall x, x ∈ l -> ~ P x) -> l' = l).
Proof.
  intros l'. subst l'.
  destruct (list_find P l) as [[k z]|] eqn:Hfind; simpl.
  - apply list_find_Some in Hfind as (Hk & Hz & Hmin).
    split_and!.
    + apply length_alter.
    + intros i x Hi Hx. rewrite list_lookup_alter_ne; [done|].
      intros ->. rewrite Hk in Hi. by injection Hi as ->.
    + intros i x Hi Hx Hbefore.
      assert (k = i) as ->.
      { destruct (Nat.lt_trichotomy k i) as [Hlt|[->|Hgt]]; [|done|].
        - by destruct (Hbefore k z Hlt Hk).
        - by destruct (Hmin i x Hi Hgt). }
      by rewrite list_lookup_alter_eq, Hi.
    + intros Hnone. destruct (Hnone z); [|done]. by eapply list_elem_of_lookup_2.
  - split_and!; try done.
    intros i x Hi Hx _. apply list_find_None in Hfind.
    rewrite Forall_forall in Hfind. destruct (Hfind x); [|done].
    by eapply list_elem_of_lookup_2.
Qed.

(** X21: a successful [generateRecommendation] on the dashboard writes the
    [recommended_action] member of the response (whatever it is, absent
    included) into the first listed anomaly with the given id; every other
    entry, the length of the list and the messages shown stay, and nothing
    changes at all when no listed anomaly has that id. *)
Theorem dashboard_generateRecommendation_next (anomalyId : Z) (response : Payload.t)
    (v : DashboardComponent.View) :
  let v' := DashboardComponent.generateRecommendation anomalyId (Next response) v in
  DashboardComponent.alerts v' = DashboardComponent.alerts v /\
  length (DashboardComponent.recentAnomalies v')
  = length (DashboardComponent.recentAnomalies v) /\
  (forall i item, DashboardComponent.recentAnomalies v !! i = Some item ->
     DashboardComponent.Item.id item <> anomalyId ->
     DashboardComponent.recentAnomalies v' !! i = Some item) /\
  (forall i item, DashboardComponent.recentAnomalies v !! i = Some item ->
     DashboardComponent.Item.id item = anomalyId ->
     (forall j other, (j < i)%nat ->
        DashboardComponent.recentAnomalies v !! j = Some other ->
        DashboardComponent.Item.id other <> anomalyId) ->
     DashboardComponent.recentAnomalies v' !! i
     = Some (DashboardComponent.Item.mk anomalyId (Payload.recommended_action response))) /\
  ((forall item, item ∈ DashboardComponent.recentAnomalies v ->
      DashboardComponent.Item.id item <> anomalyId) -> v' = v).
Proof.
  intros v'. subst v'.
  pose proof (alter_first_match
                (fun a => DashboardComponent.Item.id a = anomalyId)
                (fun a => DashboardComponent.Item.mk (DashboardComponent.Item.id a)
                            (Payload.recommended_action response))
                (DashboardComponent.recentAnomalies v)) as Hspec.
  unfold DashboardComponent.generateRecommendation.
  destruct (fst <$> list_find _ (DashboardComponent.recentAnomalies v)) as [k|];
    simpl in *; destruct Hspec as (Hlen & Hother & Hfirst & Hnone).
  - split_and!; [done|done|done| |].
    + intros i item Hi Hid Hbefore. rewrite (Hfirst i item Hi Hid Hbefore).
      by rewrite Hid.
    + intros Hno. rewrite (Hnone Hno). by destruct v.
  - split_and!; try done.
    intros i item Hi Hid Hbefore. rewrite (Hfirst i item Hi Hid Hbefore).
    by rewrite Hid.
Qed.

(** X22: [generateRecommendation()] of the plot-details view.  With no
    selection, or while the selection is loading, nothing changes.  On
    success the selection gets the normalized recommendation and stops
    loading, and so does the first list entry with the same id (other
    entries and the length of the list stay).  On failure only the selection
    gets the drawn fallback entry; the list of anomalies is left untouched. *)
Theorem plotDetails_generateRecommendation (draw : nat)
    (res : Outcome (option Payload.t)) (l : list Anomaly) (sel : Anomaly) :
  PlotDetailsComponent.generateRecommendation draw res (PlotDetailsComponent.mkView l None)
  = PlotDetailsComponent.mkView l None /\
  (loadingRecommendation sel = true ->
   PlotDetailsComponent.generateRecommendation draw res
     (PlotDetailsComponent.mkView l (Some sel))
   = PlotDetailsComponent.mkView l (Some sel)) /\
  (loadingRecommendation sel = false ->
   let v' :=
     PlotDetailsComponent.generateRecommendation draw res
       (PlotDetailsComponent.mkView l (Some sel)) in
   (forall response, res = Next response ->
      PlotDetailsComponent.selectedAnomaly v'
      = Some (set_recommendation (Some (PlotDetailsComponent.normalize response)) false sel) /\
      length (PlotDetailsComponent.anomalies v') = length l /\
      (forall i a, l !! i = Some a -> anomaly_id a <> anomaly_id sel ->
         PlotDetailsComponent.anomalies v' !! i = Some a) /\
      (forall i a, l !! i = Some a -> anomaly_id a = anomaly_id sel ->
         (forall j b, (j < i)%nat -> l !! j = Some b -> anomaly_id b <> anomaly_id sel) ->
         PlotDetailsComponent.anomalies v' !! i
         = Some (set_recommendation (Some (PlotDetailsComponent.normalize response))
                   (loadingRecommendation a) a))) /\
   (forall e entry, res = Error e ->
      PlotDetailsComponent.mockRecommendations !! draw = Some entry ->
      PlotDetailsComponent.anomalies v' = l /\
      PlotDetailsComponent.selectedAnomaly v'
      = Some (set_recommendation (Some entry) false sel))).
Proof.
  unfold PlotDetailsComponent.generateRecommendation.
  cbn [PlotDetailsComponent.selectedAnomaly PlotDetailsComponent.anomalies].
  split_and!; [done|by intros ->|]. intros ->. split.
  - intros response ->.
    cbn [PlotDetailsComponent.selectedAnomaly PlotDetailsComponent.anomalies
         anomaly_id set_recommendation].
    pose proof (alter_first_match
                  (fun a => anomaly_id a = anomaly_id sel)
                  (PlotDetailsComponent.set_agent_recommendation
                     (PlotDetailsComponent.normalize response)) l) as Hspec.
    unfold findIndex.
    destruct (fst <$> list_find _ l) as [k|];
      simpl in Hspec; destruct Hspec as (Hlen & Hother & Hfirst & _);
      split_and!; done.
  - intros e entry -> Hentry. rewrite Hentry.
    cbn [PlotDetailsComponent.selectedAnomaly PlotDetailsComponent.anomalies].
    split; [done|].
    do 4 (destruct draw as [|draw]; [by injection Hentry as <-|]). done.
Qed.

Lemma plotDetails_generateRecommendation_witness :
  let sel := low_soil_moisture (Some "high") in
  let v' :=
    PlotDetailsComponent.generateRecommendation 1 (Error (HttpErrorResponse 500))
      (PlotDetailsComponent.mkView [sel] (Some sel)) in
  PlotDetailsComponent.anomalies v' = [sel] /\
  PlotDetailsComponent.selectedAnomaly v'
  = Some (set_recommendation
            (Some (Rec.mk "Reduce irrigation and check drainage" "Excess soil moisture"
                          0.75 None None))
            false sel).
Proof.
  intros sel.
  apply (proj2 (proj2 (proj2 (plotDetails_generateRecommendation 1
                                (Error (HttpErrorResponse 500)) [sel] sel)) eq_refl)
           (HttpErrorResponse 500)
           (Rec.mk "Reduce irrigation and check drainage" "Excess soil moisture"
                   0.75 None None));
    reflexivity.
Defined.

(** X23: the dashboard lists at most ten anomalies: the first ten received,
    in order and with their ids, where an empty recommendation string is
    replaced by none, so no listed anomaly carries an empty recommendation. *)
Theorem recentAnomalies_bounded (received : list DashboardComponent.Item.t) :
  let l := DashboardComponentRest.recentAnomalies_of received in
  length l = Nat.min 10 (length received) /\
  (length l <= 10)%nat /\
  (forall i, (10 <= i)%nat -> l !! i = None) /\
  (forall i a, (i < 10)%nat -> received !! i = Some a ->
     exists a', l !! i = Some a' /\
       DashboardComponent.Item.id a' = DashboardComponent.Item.id a /\
       (DashboardComponent.Item.agent_recommendation a'
        = DashboardComponent.Item.agent_recommendation a \/
        DashboardComponent.Item.agent_recommendation a = Some "" /\
        DashboardComponent.Item.agent_recommendation a' = None)) /\
  Forall (fun a' => DashboardComponent.Item.agent_recommendation a' <> Some "") l.
Proof.
  intros l. subst l. unfold DashboardComponentRest.recentAnomalies_of.
  split_and!.
  - by rewrite length_fmap, length_take.
  - rewrite length_fmap, length_take. lia.
  - intros i Hi. by rewrite list_lookup_fmap, lookup_take_ge.
  - intros i a Hi Ha. eexists. rewrite list_lookup_fmap, lookup_take_lt, Ha by done.
    split; [done|]. split; [done|]. simpl.
    destruct (DashboardComponent.Item.agent_recommendation a) as [r|]; [|by left].
    destruct (Js.truthy r) eqn:Hr; [by left|]. right.
    unfold Js.truthy in Hr. apply negb_false_iff, String.eqb_eq in Hr. by subst.
  - apply Forall_fmap, Forall_forall. intros a _. simpl.
    destruct (DashboardComponent.Item.agent_recommendation a) as [r|]; [|done].
    destruct (Js.truthy r) eqn:Hr; [|done].
    apply truthy_true in Hr. congruence.
Qed.
